(** * Budget Tracker API: the summary engine and its stores

    A shallow embedding of [main.py] and [schemas.py].

    Modelling choices.
    - A Python [float] is a binary64 number: Rocq's primitive [float], with
      its rounding, its infinities, its signed zeros and NaN.  Equalities
      between amounts are equalities of binary64 values.
    - A Python exception is a value of [exn]; code that can raise returns
      [PyResult].  Float division raises [ZeroDivisionError] on a zero
      divisor, as in Python, and overflows to an infinity otherwise.
    - A Python [dict] is an association list with unique keys kept in
      insertion order; assigning to an existing key replaces the value in
      place.
    - The MongoDB handle [db] is an explicit [Store] threaded through the
      handlers; a collection is the list of its documents in insertion
      order.
    - A handler's return value is rendered as JSON; a float that is infinite
      or NaN cannot be rendered and the request is answered 500. *)

From Stdlib Require Import List String Ascii Bool Arith Lia.
From Stdlib Require Import Floats.
From Stdlib Require Import Hexadecimal HexadecimalNat HexadecimalString.
Import ListNotations.

Local Open Scope string_scope.
Local Open Scope float_scope.
Local Open Scope list_scope.

(** ** Python values and primitives *)

Module Py.

Inductive exn : Type :=
| HTTPException (status_code : nat) (detail : string)
| RequestValidationError
| ZeroDivisionError
| InvalidId.

Inductive PyResult (A : Type) : Type :=
| Return (a : A)
| Raise (e : exn).
Arguments Return {A} a.
Arguments Raise {A} e.

Definition bind {A B} (m : PyResult A) (k : A -> PyResult B) : PyResult B :=
  match m with
  | Return a => k a
  | Raise e => Raise e
  end.

(** [x > y] and [x >= y] on floats; both are false when an argument is NaN *)
Definition gt (x y : float) : bool := y <? x.
Definition ge (x y : float) : bool := y <=? x.

(** [x / y] on floats: a zero divisor (of either sign) raises *)
Definition truediv (x y : float) : PyResult float :=
  if y =? 0 then Raise ZeroDivisionError else Return (x / y).

(** [math.isfinite(x)]: neither an infinity nor NaN *)
Definition isfinite (x : float) : bool := PrimFloat.abs x <? infinity.

(** [max(a, b)]: the first argument is kept unless the second is greater *)
Definition max (a b : float) : float := if gt b a then b else a.

(** [sum(xs)]: the items are added from left to right, starting from 0 *)
Definition sum (xs : list float) : float := fold_left PrimFloat.add xs 0.

(** [[f(x) for x in xs]] where [f] may raise *)
Fixpoint for_each {A B} (f : A -> PyResult B) (xs : list A) : PyResult (list B) :=
  match xs with
  | [] => Return []
  | x :: xs' =>
      bind (f x) (fun y => bind (for_each f xs') (fun ys => Return (y :: ys)))
  end.

(** *** dict with string keys *)

Definition dict (V : Type) := list (string * V).

Fixpoint setitem {V} (k : string) (v : V) (d : dict V) : dict V :=
  match d with
  | [] => [(k, v)]
  | (k', v') :: d' =>
      if String.eqb k' k then (k', v) :: d' else (k', v') :: setitem k v d'
  end.

Fixpoint get {V} (d : dict V) (k : string) : option V :=
  match d with
  | [] => None
  | (k', v') :: d' => if String.eqb k' k then Some v' else get d' k
  end.

Definition get_default {V} (d : dict V) (k : string) (default : V) : V :=
  match get d k with
  | Some v => v
  | None => default
  end.

Definition keys {V} (d : dict V) : list string := map fst d.
Definition values {V} (d : dict V) : list V := map snd d.
Definition items {V} (d : dict V) : list (string * V) := d.

(** [{key(x): val(x) for x in xs}] *)
Definition dict_comp {A V} (key : A -> string) (val : A -> V) (xs : list A) : dict V :=
  fold_left (fun d x => setitem (key x) (val x) d) xs [].

End Py.

Import Py.

Declare Scope py_scope.
Notation "x <- m ;; k" := (bind m (fun x => k))
  (at level 61, m at next level, right associativity) : py_scope.
Local Open Scope py_scope.

(** ** schemas.py *)

Module Schemas.

(** A [datetime.date] *)
Record date := {
  year : nat;
  month_of_year : nat;
  day : nat }.

(** A JSON value given for a [date] field, as the validator reads it: the
    date it denotes, or a value that denotes none. *)
Inductive DateValue : Type :=
| IsDate (d : date)
| NotDate (raw : string).

(** JSON request bodies: a field that is missing from the body is [None]. *)
Record CategoryBody := {
  cb_name : option string;
  cb_emoji : option string }.

Record AllocationBody := {
  ab_category_id : option string;
  ab_target : option float }.

Record BudgetBody := {
  bb_month : option string;
  bb_income : option float;
  bb_allocations : option (list AllocationBody) }.

Record ExpenseBody := {
  eb_month : option string;
  eb_category_id : option string;
  eb_amount : option float;
  eb_note : option string;
  eb_spent_on : option DateValue }.

(** [Field(...)]: the field is required *)
Definition required {A} (x : option A) : PyResult A :=
  match x with
  | Some a => Return a
  | None => Raise RequestValidationError
  end.

(** [Field(..., ge=0)] *)
Definition required_ge0 (x : option float) : PyResult float :=
  v <- required x ;;
  if ge v 0 then Return v else Raise RequestValidationError.

(** An optional [date] field *)
Definition optional_date (x : option DateValue) : PyResult (option date) :=
  match x with
  | None => Return None
  | Some (IsDate d) => Return (Some d)
  | Some (NotDate _) => Raise RequestValidationError
  end.

Module Category.
Record t := {
  name : string;
  emoji : option string }.

Definition validate (b : CategoryBody) : PyResult t :=
  n <- required (cb_name b) ;;
  Return {| name := n; emoji := cb_emoji b |}.
End Category.

Module Allocation.
Record t := {
  category_id : string;
  target : float }.

Definition validate (b : AllocationBody) : PyResult t :=
  c <- required (ab_category_id b) ;;
  x <- required_ge0 (ab_target b) ;;
  Return {| category_id := c; target := x |}.
End Allocation.

Module Budget.
Record t := {
  month : string;
  income : float;
  allocations : list Allocation.t }.

(** [allocations] has [default_factory=list] *)
Definition validate (b : BudgetBody) : PyResult t :=
  m <- required (bb_month b) ;;
  i <- required_ge0 (bb_income b) ;;
  a <- for_each Allocation.validate
         (match bb_allocations b with Some l => l | None => [] end) ;;
  Return {| month := m; income := i; allocations := a |}.
End Budget.

Module Expense.
Record t := {
  month : string;
  category_id : string;
  amount : float;
  note : option string;
  spent_on : option date }.

Definition validate (b : ExpenseBody) : PyResult t :=
  m <- required (eb_month b) ;;
  c <- required (eb_category_id b) ;;
  a <- required_ge0 (eb_amount b) ;;
  d <- optional_date (eb_spent_on b) ;;
  Return {| month := m; category_id := c; amount := a;
            note := eb_note b; spent_on := d |}.
End Expense.

End Schemas.

Import Schemas.

(** ** main.py: request models *)

Module BudgetCreate.
Record t := {
  month : string;
  income : float;
  allocations : list Allocation.t }.

Definition validate (b : BudgetBody) : PyResult t :=
  m <- required (bb_month b) ;;
  i <- required (bb_income b) ;;
  l <- required (bb_allocations b) ;;
  a <- for_each Allocation.validate l ;;
  Return {| month := m; income := i; allocations := a |}.
End BudgetCreate.

Module ExpenseCreate.
Record t := {
  month : string;
  category_id : string;
  amount : float;
  note : option string }.

(** A key of the body that is not a field of the model ([spent_on]) is
    ignored. *)
Definition validate (b : ExpenseBody) : PyResult t :=
  m <- required (eb_month b) ;;
  c <- required (eb_category_id b) ;;
  a <- required (eb_amount b) ;;
  Return {| month := m; category_id := c; amount := a; note := eb_note b |}.
End ExpenseCreate.

(** ** The document store *)

Module Database.

(** Modelled from the spec: an [ObjectId] is the identity the store
    generates for a document ("Identity = generated id").  [bson] is not
    part of the sources; an id is a counter value and [str] renders it in
    hexadecimal. *)
Definition ObjectId := nat.

Definition str (o : ObjectId) : string :=
  NilZero.string_of_uint (Nat.to_hex_uint o).

(** [ObjectId(s)] *)
Definition ObjectId_of (s : string) : PyResult ObjectId :=
  match NilZero.uint_of_string s with
  | Some u => Return (Nat.of_hex_uint u)
  | None => Raise InvalidId
  end.

Record Doc (D : Type) := {
  _id : ObjectId;
  data : D }.
Arguments _id {D} d.
Arguments data {D} d.

Definition Collection (D : Type) := list (Doc D).

Section Collection.
Context {D : Type}.

Definition insert_one (c : Collection D) (o : ObjectId) (d : D) : Collection D :=
  c ++ [{| _id := o; data := d |}].

Definition find (c : Collection D) (q : Doc D -> bool) : list (Doc D) :=
  filter q c.

Definition find_one (c : Collection D) (q : Doc D -> bool) : option (Doc D) :=
  List.find q c.

Definition delete_many (c : Collection D) (q : Doc D -> bool) : Collection D :=
  filter (fun d => negb (q d)) c.
End Collection.

(** [db]: the three collections and the id generator *)
Record Store := {
  category : Collection Category.t;
  budget : Collection BudgetCreate.t;
  expense : Collection ExpenseCreate.t;
  next_oid : ObjectId }.

Definition empty : Store :=
  {| category := []; budget := []; expense := []; next_oid := 1%nat |}.

(** [db[name]]: a handle on one collection of the store *)
Record Handle (D : Type) := {
  read : Store -> Collection D;
  write : Collection D -> Store -> Store }.
Arguments read {D} h s.
Arguments write {D} h c s.

Definition db_category : Handle Category.t :=
  {| read := category;
     write c s := {| category := c; budget := budget s;
                     expense := expense s; next_oid := next_oid s |} |}.

Definition db_budget : Handle BudgetCreate.t :=
  {| read := budget;
     write c s := {| category := category s; budget := c;
                     expense := expense s; next_oid := next_oid s |} |}.

Definition db_expense : Handle ExpenseCreate.t :=
  {| read := expense;
     write c s := {| category := category s; budget := budget s;
                     expense := c; next_oid := next_oid s |} |}.

Definition fresh (s : Store) : Store :=
  {| category := category s; budget := budget s;
     expense := expense s; next_oid := S (next_oid s) |}.

(** Modelled from the spec: [create_document] of [database.py], which is
    not part of the sources.  It inserts [data] as one new document with a
    generated id into the collection and returns the id as a string
    ("pure append"; "inserts the new one"). *)
Definition create_document {D} (h : Handle D) (d : D) (s : Store) : Store * string :=
  let o := next_oid s in
  (fresh (write h (insert_one (read h s) o d) s), str o).

(** Modelled from the spec: [get_documents] of [database.py], which is not
    part of the sources: all documents of the collection. *)
Definition get_documents {D} (h : Handle D) (s : Store) : list (Doc D) :=
  find (read h s) (fun _ => true).

(** One output document of the [$group] stage *)
Record Group := {
  g_id : string;
  g_spent : float }.

(** Modelled from the spec: the aggregation pipeline
    [[{$match: {month}}, {$group: {_id: $category_id, spent: {$sum: $amount}}}]]
    evaluated by the store: "group by category_id, summing amount per
    group".  [group_step] adds one matched document to its group; groups
    come out in order of first appearance. *)
Definition group_step (acc : dict float) (d : Doc ExpenseCreate.t) : dict float :=
  let k := ExpenseCreate.category_id (data d) in
  setitem k (get_default acc k 0 + ExpenseCreate.amount (data d)) acc.

Definition aggregate_spent (c : Collection ExpenseCreate.t) (month : string) : list Group :=
  let matched := find c (fun d => String.eqb (ExpenseCreate.month (data d)) month) in
  map (fun kv => {| g_id := fst kv; g_spent := snd kv |})
      (fold_left group_step matched []).

End Database.

Import Database.

(** ** main.py: handlers *)

(** A returned document: [_id] replaced by the public [id] string *)
Record Out (D : Type) := {
  id : string;
  body : D }.
Arguments id {D} o.
Arguments body {D} o.

(** An [ObjectId] is always truthy, so a document that is present always
    gets its [id]. *)
Definition serialize_doc {D} (doc : option (Doc D)) : option (Out D) :=
  match doc with
  | None => None
  | Some d => Some {| id := str (_id d); body := data d |}
  end.

Definition by_id {D} (o : ObjectId) (d : Doc D) : bool := Nat.eqb (_id d) o.

Definition create_category (category : Category.t) (s : Store)
  : Store * PyResult (option (Out Category.t)) :=
  let '(s1, inserted_id) := create_document db_category category s in
  (s1,
   o <- ObjectId_of inserted_id ;;
   Return (serialize_doc (find_one (read db_category s1) (by_id o)))).

Definition list_categories (s : Store) : list (option (Out Category.t)) :=
  map (fun d => serialize_doc (Some d)) (get_documents db_category s).

Definition budget_month (month : string) (d : Doc BudgetCreate.t) : bool :=
  String.eqb (BudgetCreate.month (data d)) month.

Definition create_budget (budget : BudgetCreate.t) (s : Store)
  : Store * PyResult (option (Out BudgetCreate.t)) :=
  let month := BudgetCreate.month budget in
  let s0 := write db_budget (delete_many (read db_budget s) (budget_month month)) s in
  let '(s1, inserted_id) := create_document db_budget budget s0 in
  (s1,
   o <- ObjectId_of inserted_id ;;
   Return (serialize_doc (find_one (read db_budget s1) (by_id o)))).

Definition get_budget (month : string) (s : Store) : PyResult (option (Out BudgetCreate.t)) :=
  match find_one (read db_budget s) (budget_month month) with
  | None => Raise (HTTPException 404 "Budget not found for month")
  | Some d => Return (serialize_doc (Some d))
  end.

Definition add_expense (expense : ExpenseCreate.t) (s : Store)
  : Store * PyResult (option (Out ExpenseCreate.t)) :=
  let '(s1, inserted_id) := create_document db_expense expense s in
  (s1,
   o <- ObjectId_of inserted_id ;;
   Return (serialize_doc (find_one (read db_expense s1) (by_id o)))).

Definition expense_month (month : string) (d : Doc ExpenseCreate.t) : bool :=
  String.eqb (ExpenseCreate.month (data d)) month.

Definition list_expenses (month : string) (s : Store) : list (option (Out ExpenseCreate.t)) :=
  map (fun d => serialize_doc (Some d)) (find (read db_expense s) (expense_month month)).

(** One element of [categories_summary] *)
Module CategorySummary.
Record t := {
  id : string;
  name : string;
  emoji : option string;
  target : float;
  spent : float;
  progress : option float }.
End CategorySummary.

Module Summary.
Record t := {
  month : string;
  income : float;
  total_target : float;
  total_spent : float;
  remaining : float;
  categories : list CategorySummary.t }.
End Summary.

(** The body of the loop over the budget's allocations *)
Definition assign_target (allocations_map : dict float) (alloc : Allocation.t) : dict float :=
  setitem (Allocation.category_id alloc) (Allocation.target alloc) allocations_map.

(** [allocations_map] after the loop *)
Definition build_allocations_map (allocs : list Allocation.t) : dict float :=
  fold_left assign_target allocs [].

(** The body of the loop over [categories.items()] *)
Definition category_row (allocations_map spent_by_cat : dict float)
    (item : string * Doc Category.t) : PyResult CategorySummary.t :=
  let '(cat_id, cat) := item in
  let target := get_default allocations_map cat_id 0 in
  let spent := get_default spent_by_cat cat_id 0 in
  progress <- (if gt target 0
               then q <- truediv spent target ;; Return (Some (q * 100))
               else Return None) ;;
  Return {| CategorySummary.id := cat_id;
            CategorySummary.name := Category.name (data cat);
            CategorySummary.emoji := Category.emoji (data cat);
            CategorySummary.target := target;
            CategorySummary.spent := spent;
            CategorySummary.progress := progress |}.

Definition summary (month : string) (s : Store) : PyResult Summary.t :=
  let budget_doc := find_one (read db_budget s) (budget_month month) in
  let '(income, allocations_map) :=
    match budget_doc with
    | Some d =>
        (BudgetCreate.income (data d),
         build_allocations_map (BudgetCreate.allocations (data d)))
    | None => (0, [])
    end in
  let spent_by_cat :=
    dict_comp g_id g_spent (aggregate_spent (read db_expense s) month) in
  let categories :=
    dict_comp (fun c => str (_id c)) (fun c => c)
      (find (read db_category s) (fun _ => true)) in
  categories_summary <-
    for_each (category_row allocations_map spent_by_cat) (items categories) ;;
  let total_target := sum (values allocations_map) in
  let total_spent := sum (values spent_by_cat) in
  Return {| Summary.month := month;
            Summary.income := income;
            Summary.total_target := total_target;
            Summary.total_spent := total_spent;
            Summary.remaining := max (income - total_spent) 0;
            Summary.categories := categories_summary |}.

(** ** The HTTP surface *)

(** The request body is validated against the handler's parameter model
    before the handler runs; a body that fails validation leaves the store
    untouched. *)
Definition endpoint {B M A} (validate : B -> PyResult M)
    (handler : M -> Store -> Store * PyResult A) (b : B) (s : Store)
  : Store * PyResult A :=
  match validate b with
  | Return m => handler m s
  | Raise e => (s, Raise e)
  end.

Definition POST_api_categories := endpoint Category.validate create_category.
Definition POST_api_budgets := endpoint BudgetCreate.validate create_budget.
Definition POST_api_expenses := endpoint ExpenseCreate.validate add_expense.
Definition GET_api_budgets (month : string) (s : Store) := get_budget month s.
Definition GET_api_summary (month : string) (s : Store) := summary month s.


Definition BudgetCreate_floats (b : BudgetCreate.t) : list float :=
  BudgetCreate.income b :: map Allocation.target (BudgetCreate.allocations b).

Definition ExpenseCreate_floats (e : ExpenseCreate.t) : list float :=
  [ExpenseCreate.amount e].

Definition doc_floats {D} (fields : D -> list float) (o : option (Out D)) : list float :=
  match o with
  | None => []
  | Some d => fields (body d)
  end.

Definition row_floats (row : CategorySummary.t) : list float :=
  CategorySummary.target row :: CategorySummary.spent row ::
  match CategorySummary.progress row with
  | Some p => [p]
  | None => []
  end.

Definition Summary_floats (r : Summary.t) : list float :=
  Summary.income r :: Summary.total_target r :: Summary.total_spent r ::
  Summary.remaining r :: flat_map row_floats (Summary.categories r).

(** Status code of the response.  The returned value is rendered with
    [allow_nan=False]: when one of its floats is not finite the rendering
    raises and the answer is 500.  [HTTPException] carries its own code, a
    body that fails validation is answered 422, any other exception 500. *)
Definition status_code {A} (floats : A -> list float) (r : PyResult A) : nat :=
  match r with
  | Return a => if forallb isfinite (floats a) then 200 else 500
  | Raise (HTTPException c _) => c
  | Raise RequestValidationError => 422
  | Raise _ => 500
  end%nat.

Definition summary_status (month : string) (s : Store) : nat :=
  status_code Summary_floats (GET_api_summary month s).

Definition budget_status (month : string) (s : Store) : nat :=
  status_code (doc_floats BudgetCreate_floats) (GET_api_budgets month s).

(** Stores the API can produce: the writes that start from the empty store *)
Inductive Request : Type :=
| PostCategory (b : CategoryBody)
| PostBudget (b : BudgetBody)
| PostExpense (b : ExpenseBody).

Definition serve (r : Request) (s : Store) : Store :=
  match r with
  | PostCategory b => fst (POST_api_categories b s)
  | PostBudget b => fst (POST_api_budgets b s)
  | PostExpense b => fst (POST_api_expenses b s)
  end.

Inductive reachable : Store -> Prop :=
| reachable_empty : reachable empty
| reachable_serve r s : reachable s -> reachable (serve r s).

(** ** main.py: the probes *)

Definition read_root : string := "Budget Tracker Backend is running".

(** What [test_database] looks at.  The attribute [name] of the handle may be
    missing, hold a string, or raise when it is read;
    [list_collection_names] returns the names or raises with a message. *)
Inductive attr : Type :=
| AttrMissing
| AttrValue (v : string)
| AttrRaises (msg : string).

(** [s[:n]]: the first [n] characters of a string.  A string is held as its
    UTF-8 bytes; a byte [10xxxxxx] continues the character before it. *)
Definition continuation (c : ascii) : bool :=
  let n := nat_of_ascii c in (128 <=? n)%nat && (n <? 192)%nat.

Fixpoint take_chars (n : nat) (s : string) : string :=
  match s with
  | EmptyString => EmptyString
  | String c s' =>
      if continuation c then String c (take_chars n s')
      else match n with
           | O => EmptyString
           | S n' => String c (take_chars n' s')
           end
  end.

Record Db := {
  db_name : attr;
  list_collection_names : string + list string }.

Module Probe.
Record t := {
  backend : string;
  database : string;
  database_url : option string;
  database_name : option string;
  connection_status : string;
  collections : list string }.

Definition set_database (v : string) (r : t) : t :=
  {| backend := backend r; database := v; database_url := database_url r;
     database_name := database_name r; connection_status := connection_status r;
     collections := collections r |}.

Definition set_database_url (v : option string) (r : t) : t :=
  {| backend := backend r; database := database r; database_url := v;
     database_name := database_name r; connection_status := connection_status r;
     collections := collections r |}.

Definition set_database_name (v : option string) (r : t) : t :=
  {| backend := backend r; database := database r; database_url := database_url r;
     database_name := v; connection_status := connection_status r;
     collections := collections r |}.

Definition set_connection_status (v : string) (r : t) : t :=
  {| backend := backend r; database := database r; database_url := database_url r;
     database_name := database_name r; connection_status := v;
     collections := collections r |}.

Definition set_collections (v : list string) (r : t) : t :=
  {| backend := backend r; database := database r; database_url := database_url r;
     database_name := database_name r; connection_status := connection_status r;
     collections := v |}.
End Probe.

(** Truth value of [os.getenv(name)]: unset and empty are false *)
Definition env_set (v : option string) : bool :=
  match v with
  | None => false
  | Some "" => false
  | Some _ => true
  end.

Definition test_database (db : option Db) (getenv : string -> option string) : Probe.t :=
  let response :=
    {| Probe.backend := "✅ Running";
       Probe.database := "❌ Not Available";
       Probe.database_url := None;
       Probe.database_name := None;
       Probe.connection_status := "Not Connected";
       Probe.collections := [] |} in
  let response :=
    match db with
    | Some d =>
        let response := Probe.set_database "✅ Available" response in
        let response := Probe.set_database_url (Some "✅ Configured") response in
        match db_name d with
        | AttrRaises msg =>
            Probe.set_database ("❌ Error: " ++ take_chars 50 msg)%string response
        | name =>
            let response :=
              Probe.set_database_name
                (Some (match name with AttrValue v => v | _ => "✅ Connected" end))
                response in
            let response := Probe.set_connection_status "Connected" response in
            match list_collection_names d with
            | inr names =>
                let response := Probe.set_collections (firstn 10 names) response in
                Probe.set_database "✅ Connected & Working" response
            | inl msg =>
                Probe.set_database
                  ("⚠️  Connected but Error: " ++ take_chars 50 msg)%string response
            end
        end
    | None => Probe.set_database "⚠️  Available but not initialized" response
    end in
  let response :=
    Probe.set_database_url
      (Some (if env_set (getenv "DATABASE_URL") then "✅ Set" else "❌ Not Set"))
      response in
  Probe.set_database_name
    (Some (if env_set (getenv "DATABASE_NAME") then "✅ Set" else "❌ Not Set"))
    response.

(** ** Specification-side definitions *)

(** Whether an allocation names category id [k] *)
Definition names (k : string) (a : Allocation.t) : bool :=
  String.eqb (Allocation.category_id a) k.

(** The distinct keys of [ks] in order of first appearance, leaving out
    the keys already [seen] *)
Fixpoint first_keys (seen ks : list string) : list string :=
  match ks with
  | [] => []
  | k :: ks' =>
      if existsb (String.eqb k) seen then first_keys seen ks'
      else k :: first_keys (seen ++ [k]) ks'
  end.

(** The target of the last allocation of [l] that names [k] *)
Fixpoint last_target (k : string) (l : list Allocation.t) : option float :=
  match l with
  | [] => None
  | a :: l' =>
      match last_target k l' with
      | Some v => Some v
      | None => if names k a then Some (Allocation.target a) else None
      end
  end.

(** The allocation list [summary] reads for a month: that of the first
    budget document found, or none. *)
Definition allocations_of (month : string) (s : Store) : list Allocation.t :=
  match find_one (read db_budget s) (budget_month month) with
  | Some d => BudgetCreate.allocations (data d)
  | None => []
  end.


(** Every stored id was generated, and no two documents of a collection
    share one. *)
Definition ids {D} (c : Collection D) : list ObjectId := map _id c.

Record store_wf (s : Store) : Prop := {
  wf_category_lt : forall o, In o (ids (category s)) -> (o < next_oid s)%nat;
  wf_category_nodup : NoDup (ids (category s)) }.

(** The values [summary] computes on its way, named for the statements
    below. *)
Definition income_of (month : string) (s : Store) : float :=
  match find_one (read db_budget s) (budget_month month) with
  | Some d => BudgetCreate.income (data d)
  | None => 0
  end.

Definition allocations_map_of (month : string) (s : Store) : dict float :=
  build_allocations_map (allocations_of month s).

Definition spent_by_cat_of (month : string) (s : Store) : dict float :=
  dict_comp g_id g_spent (aggregate_spent (read db_expense s) month).

Definition categories_of (s : Store) : dict (Doc Category.t) :=
  dict_comp (fun c => str (_id c)) (fun c => c)
    (find (read db_category s) (fun _ => true)).

(** The [progress] expression when no exception is raised *)
Definition progress_of (target spent : float) : option float :=
  if gt target 0 then Some (spent / target * 100) else None.

Definition row_of (allocations_map spent_by_cat : dict float)
    (item : string * Doc Category.t) : CategorySummary.t :=
  let target := get_default allocations_map (fst item) 0 in
  let spent := get_default spent_by_cat (fst item) 0 in
  {| CategorySummary.id := fst item;
     CategorySummary.name := Category.name (data (snd item));
     CategorySummary.emoji := Category.emoji (data (snd item));
     CategorySummary.target := target;
     CategorySummary.spent := spent;
     CategorySummary.progress := progress_of target spent |}.


(** The target the allocation list [l] gives category id [k]: that of the
    last allocation naming it, 0 when none does *)
Definition target_of (l : list Allocation.t) (k : string) : float :=
  match last_target k l with
  | Some v => v
  | None => 0
  end.

(** The category ids an allocation list names, in order of first appearance *)
Definition target_keys (l : list Allocation.t) : list string :=
  first_keys [] (map Allocation.category_id l).




(** ** Runs of requests *)

(** The store after a sequence of write requests, served in order *)
Definition run (rs : list Request) (s : Store) : Store :=
  fold_left (fun s r => serve r s) rs s.


(** What makes [Allocation] refuse an element of the allocation list *)
Definition bad_allocation (ab : AllocationBody) : Prop :=
  ab_category_id ab = None \/ ab_target ab = None \/
  exists x, ab_target ab = Some x /\ ge x 0 = false.

(** Every id in the store is older than the next one the generator gives. *)
Definition ids_fresh (s : Store) : Prop :=
  forall o, In o (ids (category s) ++ ids (budget s) ++ ids (expense s)) ->
            (o < next_oid s)%nat.

(** The stored budgets of a month *)
Definition budgets_of (month : string) (s : Store) : list (Doc BudgetCreate.t) :=
  find (budget s) (budget_month month).

(** Every value of the dict is [>= 0]. *)
Definition nonneg_values (d : dict float) : Prop :=
  forall kv, In kv d -> ge (snd kv) 0 = true.


(** ** Sample requests and stores *)

Definition food_body : CategoryBody :=
  {| cb_name := Some "Food"; cb_emoji := Some "🍔" |}.

Definition created_id {D} (r : PyResult (option (Out D))) : string :=
  match r with
  | Return (Some o) => id o
  | _ => ""
  end.

(** The id the store gives the first category created *)
Definition C1_id : string := created_id (snd (POST_api_categories food_body empty)).

Definition budget_body (month : string) (income : float) (allocs : list (string * float))
  : BudgetBody :=
  {| bb_month := Some month;
     bb_income := Some income;
     bb_allocations :=
       Some (map (fun a => {| ab_category_id := Some (fst a); ab_target := Some (snd a) |})
                 allocs) |}.

Definition expense_body (month cid : string) (amount : float) (spent_on : option DateValue)
  : ExpenseBody :=
  {| eb_month := Some month;
     eb_category_id := Some cid;
     eb_amount := Some amount;
     eb_note := None;
     eb_spent_on := spent_on |}.

(** Category Food, a budget for 2024-01 and two expenses *)
Definition scenario_store : Store :=
  serve (PostExpense (expense_body "2024-01" C1_id 50 None))
    (serve (PostExpense (expense_body "2024-01" C1_id 100 None))
       (serve (PostBudget (budget_body "2024-01" 1000 [(C1_id, 300)]))
          (serve (PostCategory food_body) empty))).

(** Two categories with the same name and emoji *)
Definition twin_store : Store :=
  serve (PostCategory food_body) (serve (PostCategory food_body) empty).

(** A budget whose allocation list names the category twice *)
Definition dup_store : Store :=
  serve (PostBudget (budget_body "2024-01" 1000 [(C1_id, 300); (C1_id, 500)]))
    (serve (PostCategory food_body) empty).

(** An expense booked on a category id that no category has *)
Definition ghost_expense : ExpenseCreate.t :=
  {| ExpenseCreate.month := "2024-01"; ExpenseCreate.category_id := "ffff";
     ExpenseCreate.amount := 40; ExpenseCreate.note := None |}.

(** A stored expense document read back under the [Expense] schema: a key
    the document does not have takes the default of its field. *)
Definition stored_expense (d : Doc ExpenseCreate.t) : Expense.t :=
  {| Expense.month := ExpenseCreate.month (data d);
     Expense.category_id := ExpenseCreate.category_id (data d);
     Expense.amount := ExpenseCreate.amount (data d);
     Expense.note := ExpenseCreate.note (data d);
     Expense.spent_on := None |}.

(** The scenario with one more expense, larger than the income *)
Definition overspent_store : Store :=
  serve (PostExpense (expense_body "2024-01" C1_id 2000 None)) scenario_store.

(** A target so small that the progress of a large expense overflows *)
Definition overflow_store : Store :=
  serve (PostExpense (expense_body "2024-01" C1_id 0x1p+1000 None))
    (serve (PostBudget (budget_body "2024-01" 1000 [(C1_id, 0x1p-1000)]))
       (serve (PostCategory food_body) empty)).

(** An infinite income and an infinite expense *)
Definition infinite_store : Store :=
  serve (PostExpense (expense_body "2024-01" C1_id infinity None))
    (serve (PostBudget (budget_body "2024-01" infinity []))
       (serve (PostCategory food_body) empty)).

(** ** Comparisons of binary64 numbers *)

Lemma Prim2SF_zero : Prim2SF 0 = S754_zero false.
Proof.
  reflexivity.
Qed.

Lemma gt_0_nonzero (x : float) : gt x 0 = true -> (x =? 0) = false.
Proof.
  unfold gt. rewrite ltb_spec, eqb_spec, Prim2SF_zero.
  destruct (Prim2SF x) as [sg|sg| |sg m e]; simpl; try discriminate; try reflexivity;
    destruct sg; discriminate || reflexivity.
Qed.

Lemma eq_0_not_gt (x : float) : (x =? 0) = true -> gt x 0 = false.
Proof.
  intro H. destruct (gt x 0) eqn:E; [|reflexivity].
  apply gt_0_nonzero in E. congruence.
Qed.

Lemma not_lt_0_ge (x : float) :
  (x =? x) = true -> (x <? 0) = false -> ge x 0 = true.
Proof.
  unfold ge. rewrite ltb_spec, leb_spec, eqb_spec, Prim2SF_zero.
  destruct (Prim2SF x) as [sg|sg| |sg m e]; simpl; try discriminate; try reflexivity;
    destruct sg; discriminate || reflexivity.
Qed.

(** ** dict *)

Ltac key_cases k k' :=
  let E := fresh "E" in
  destruct (String.eqb_spec k k') as [E|E]; [try subst|]; simpl; try congruence.

Lemma get_setitem_same {V} (k : string) (v : V) (d : dict V) :
  get (setitem k v d) k = Some v.
Proof.
  induction d as [|[k' v'] d IH]; simpl.
  - now rewrite String.eqb_refl.
  - key_cases k' k.
    + now rewrite String.eqb_refl.
    + destruct (String.eqb_spec k' k); congruence.
Qed.

Lemma get_setitem_other {V} (k k0 : string) (v : V) (d : dict V) :
  k <> k0 -> get (setitem k v d) k0 = get d k0.
Proof.
  intro Hne. induction d as [|[k' v'] d IH]; simpl.
  - key_cases k k0.
  - key_cases k' k.
    + key_cases k k0.
    + now rewrite IH.
Qed.

Lemma get_None_keys {V} (d : dict V) (k : string) :
  get d k = None <-> ~ In k (keys d).
Proof.
  induction d as [|[k' v'] d IH]; simpl.
  - tauto.
  - key_cases k' k.
    + split; [discriminate | tauto].
    + rewrite IH. tauto.
Qed.

Lemma keys_setitem_in {V} (k : string) (v : V) (d : dict V) :
  In k (keys d) -> keys (setitem k v d) = keys d.
Proof.
  induction d as [|[k' v'] d IH]; simpl.
  - tauto.
  - intros [H|H]; key_cases k' k.
    f_equal. now apply IH.
Qed.

Lemma keys_setitem_notin {V} (k : string) (v : V) (d : dict V) :
  ~ In k (keys d) -> keys (setitem k v d) = keys d ++ [k].
Proof.
  induction d as [|[k' v'] d IH]; simpl.
  - reflexivity.
  - intro H. key_cases k' k.
    + tauto.
    + f_equal. apply IH. tauto.
Qed.


Lemma NoDup_keys_setitem {V} (k : string) (v : V) (d : dict V) :
  NoDup (keys d) -> NoDup (keys (setitem k v d)).
Proof.
  intro Hd. destruct (in_dec string_dec k (keys d)) as [H|H].
  - now rewrite keys_setitem_in.
  - rewrite keys_setitem_notin by assumption.
    apply NoDup_app; [assumption | repeat constructor; simpl; tauto |].
    intros x Hx [<-|[]]. contradiction.
Qed.

(** ** [summary] never raises *)

Lemma truediv_pos (x y : float) : gt y 0 = true -> truediv x y = Return (x / y).
Proof.
  intro H. unfold truediv. now rewrite (gt_0_nonzero y H).
Qed.

Lemma category_row_returns (am sb : dict float) (item : string * Doc Category.t) :
  category_row am sb item = Return (row_of am sb item).
Proof.
  destruct item as [cat_id cat]. unfold category_row, row_of, progress_of. simpl.
  destruct (gt (get_default am cat_id 0) 0) eqn:E; simpl; [|reflexivity].
  now rewrite (truediv_pos _ _ E).
Qed.

Lemma for_each_returns {A B} (f : A -> PyResult B) (g : A -> B) (xs : list A) :
  (forall x, f x = Return (g x)) -> for_each f xs = Return (map g xs).
Proof.
  intro H. induction xs as [|x xs IH]; simpl; [reflexivity|].
  now rewrite H, IH.
Qed.

Lemma summary_returns (month : string) (s : Store) :
  summary month s =
  Return {| Summary.month := month;
            Summary.income := income_of month s;
            Summary.total_target := sum (values (allocations_map_of month s));
            Summary.total_spent := sum (values (spent_by_cat_of month s));
            Summary.remaining :=
              max (income_of month s - sum (values (spent_by_cat_of month s))) 0;
            Summary.categories :=
              map (row_of (allocations_map_of month s) (spent_by_cat_of month s))
                  (items (categories_of s)) |}.
Proof.
  unfold summary, income_of, allocations_map_of, allocations_of,
    spent_by_cat_of, categories_of.
  destruct (find_one (read db_budget s) (budget_month month)) as [d|];
    rewrite (for_each_returns _ _ _ (category_row_returns _ _)); reflexivity.
Qed.

(** ** Remaining income *)

Lemma max_0_not_negative (a : float) : (max a 0 <? 0) = false.
Proof.
  unfold max, gt. destruct (a <? 0) eqn:E; [reflexivity | exact E].
Qed.

(** C4, as stated, fails when [income - total_spent] is NaN: with an
    infinite income and an infinite expense, both accepted by the API,
    [remaining] is NaN.  It is then not [>= 0], and equal neither to 0 nor to
    [income - total_spent]. *)
Lemma remaining_nan :
  exists r, summary "2024-01" infinite_store = Return r /\
    Summary.income r = infinity /\ Summary.total_spent r = infinity /\
    Summary.remaining r = nan /\
    ge (Summary.remaining r) 0 = false /\
    (Summary.remaining r =? 0) = false /\
    (Summary.remaining r =? Summary.income r - Summary.total_spent r) = false.
Proof.
  eexists. split; [vm_compute; reflexivity|]. repeat split.
Qed.

(** C4 (amended): for every month [summary] returns, and [remaining] is what
    [max(income - total_spent, 0.0)] gives in Python: 0 when
    [income - total_spent] is below 0, and [income - total_spent] otherwise.
    It is never below 0; it is [>= 0] unless [income - total_spent] is NaN,
    and then it is NaN. *)
Theorem remaining_clamped (month : string) (s : Store) :
  exists r, summary month s = Return r /\
    let d := Summary.income r - Summary.total_spent r in
    Summary.remaining r = max d 0 /\
    (Summary.remaining r <? 0) = false /\
    ((d <? 0) = true -> Summary.remaining r = 0) /\
    ((d <? 0) = false -> Summary.remaining r = d) /\
    ((d =? d) = true -> ge (Summary.remaining r) 0 = true).
Proof.
  eexists. split; [apply summary_returns|]. cbv zeta.
  cbn [Summary.income Summary.total_spent Summary.remaining].
  set (d := income_of month s - sum (values (spent_by_cat_of month s))).
  split; [reflexivity|]. split; [apply max_0_not_negative|].
  unfold max, gt. split; [|split].
  - now intros ->.
  - now intros ->.
  - intro Hd. destruct (d <? 0) eqn:E; [reflexivity|].
    now apply not_lt_0_ge.
Qed.

Lemma remaining_clamped_witness :
  exists r, summary "2024-01" overspent_store = Return r /\ Summary.remaining r = 0.
Proof.
  destruct (remaining_clamped "2024-01" overspent_store) as [r [Hr [_ [_ [H _]]]]].
  exists r. split; [exact Hr|]. apply H.
  vm_compute in Hr. injection Hr as <-. reflexivity.
Defined.

(** ** Generated ids *)

Lemma ObjectId_of_str (o : ObjectId) : ObjectId_of (str o) = Return o.
Proof.
  unfold ObjectId_of, str.
  pose proof (Unsigned.of_to o) as Hof.
  destruct (Nat.to_hex_uint o) eqn:E;
    try (rewrite NilZero.usu by discriminate; now rewrite Hof).
  simpl in *. now subst.
Qed.

Lemma str_inj (a b : ObjectId) : str a = str b -> a = b.
Proof.
  intro H. pose proof (ObjectId_of_str a) as Ha.
  rewrite H, ObjectId_of_str in Ha. congruence.
Qed.

(** ** Dicts built by a loop of assignments *)

Section FoldSetitem.
Context {A V : Type} (key : A -> string) (val : dict V -> A -> V).

Let assign (d : dict V) (x : A) : dict V := setitem (key x) (val d x) d.


Lemma fold_setitem_NoDup (xs : list A) (acc : dict V) :
  NoDup (keys acc) -> NoDup (keys (fold_left assign xs acc)).
Proof.
  revert acc. induction xs as [|x xs IH]; intros acc H; simpl.
  - assumption.
  - apply IH. now apply NoDup_keys_setitem.
Qed.

Lemma fold_setitem_fresh (val0 : A -> V) (xs : list A) (acc : dict V) :
  (forall d x, val d x = val0 x) ->
  NoDup (keys acc ++ map key xs) ->
  fold_left assign xs acc = acc ++ map (fun x => (key x, val0 x)) xs.
Proof.
  intro Hval. revert acc. induction xs as [|x xs IH]; intros acc H; simpl.
  - now rewrite app_nil_r.
  - assert (Hx : ~ In (key x) (keys acc)).
    { intro Hin. apply NoDup_remove_2 in H. apply H.
      apply in_or_app. now left. }
    assert (Hset : assign acc x = acc ++ [(key x, val0 x)]).
    { unfold assign. rewrite Hval. clear - Hx.
      induction acc as [|[k' v'] acc IHa]; simpl in *; [reflexivity|].
      key_cases k' (key x); [tauto|]. f_equal. apply IHa. tauto. }
    rewrite Hset, IH.
    + now rewrite <- app_assoc.
    + unfold keys in *. rewrite map_app, <- app_assoc. exact H.
Qed.
End FoldSetitem.


Lemma dict_comp_NoDup {A V} (key : A -> string) (val : A -> V) (xs : list A) :
  NoDup (keys (dict_comp key val xs)).
Proof.
  apply (fold_setitem_NoDup key (fun _ => val)). constructor.
Qed.

Lemma dict_comp_fresh {A V} (key : A -> string) (val : A -> V) (xs : list A) :
  NoDup (map key xs) -> dict_comp key val xs = map (fun x => (key x, val x)) xs.
Proof.
  intro H. unfold dict_comp.
  now rewrite (fold_setitem_fresh key (fun _ => val) val).
Qed.

Lemma find_all {D} (c : Collection D) : find c (fun _ => true) = c.
Proof.
  unfold find. induction c as [|d c IH]; simpl; congruence.
Qed.


Lemma row_ids (am sb : dict float) (d : dict (Doc Category.t)) :
  map CategorySummary.id (map (row_of am sb) (items d)) = keys d.
Proof.
  unfold items, keys. rewrite map_map. reflexivity.
Qed.

(** ** Reachable stores are well formed *)

Lemma store_wf_empty : store_wf empty.
Proof.
  split; simpl; [tauto | constructor].
Qed.

Lemma store_wf_keep (s s' : Store) :
  category s' = category s -> (next_oid s <= next_oid s')%nat ->
  store_wf s -> store_wf s'.
Proof.
  intros Hc Hn [Hlt Hnd]. split; rewrite Hc; [|assumption].
  intros o Ho. specialize (Hlt o Ho). lia.
Qed.

Lemma store_wf_create_category (c : Category.t) (s : Store) :
  store_wf s -> store_wf (fst (create_category c s)).
Proof.
  intros [Hlt Hnd]. split; simpl; unfold insert_one, ids in *; rewrite map_app; simpl.
  - intros o Ho. apply in_app_or in Ho. destruct Ho as [Ho|[<-|[]]]; [|lia].
    specialize (Hlt o Ho). lia.
  - apply NoDup_app; [assumption | repeat constructor; simpl; tauto |].
    intros x Hx [<-|[]]. specialize (Hlt _ Hx). lia.
Qed.

Lemma store_wf_serve (r : Request) (s : Store) :
  store_wf s -> store_wf (serve r s).
Proof.
  intro H. destruct r as [b|b|b]; simpl.
  - unfold POST_api_categories, endpoint.
    destruct (Category.validate b); [now apply store_wf_create_category | exact H].
  - unfold POST_api_budgets, endpoint.
    destruct (BudgetCreate.validate b); [|exact H].
    apply (store_wf_keep s); simpl; auto.
  - unfold POST_api_expenses, endpoint.
    destruct (ExpenseCreate.validate b); [|exact H].
    apply (store_wf_keep s); simpl; auto.
Qed.

Lemma reachable_wf (s : Store) : reachable s -> store_wf s.
Proof.
  induction 1 as [|r s _ IH]; [apply store_wf_empty | now apply store_wf_serve].
Qed.

Lemma NoDup_map_str (l : list ObjectId) : NoDup l -> NoDup (map str l).
Proof.
  induction 1 as [|o l Ho _ IH]; simpl; constructor; [|assumption].
  rewrite in_map_iff. intros [o' [E Ho']].
  apply str_inj in E. now subst.
Qed.

Lemma categories_of_wf (s : Store) :
  store_wf s ->
  categories_of s = map (fun c => (str (_id c), c)) (category s).
Proof.
  intros [_ Hnd]. unfold categories_of. simpl. rewrite find_all.
  apply dict_comp_fresh.
  rewrite <- (map_map _id str).
  now apply NoDup_map_str.
Qed.

(** ** Months without a budget *)

Lemma find_one_none {D} (c : Collection D) (q : Doc D -> bool) :
  (forall d, In d c -> q d = false) -> find_one c q = None.
Proof.
  unfold find_one. induction c as [|d c IH]; intro H; simpl; [reflexivity|].
  rewrite (H d) by now left. apply IH. intros d' Hd'. apply H. now right.
Qed.

Lemma no_budget_find_one (month : string) (s : Store) :
  (forall d, In d (budget s) -> BudgetCreate.month (data d) <> month) ->
  find_one (read db_budget s) (budget_month month) = None.
Proof.
  intro H. apply find_one_none. intros d Hd. unfold budget_month.
  apply String.eqb_neq. now apply H.
Qed.

(** C1: [GET /api/summary/{month}] never answers 404: for every month and
    store the handler returns a summary, and the answer is 200, or 500 when
    a float of the summary cannot be rendered.  When the store holds no
    budget for the month, where [GET /api/budgets/{month}] answers 404,
    the summary returned has income 0, and every category row has target 0
    and no progress. *)
Theorem summary_without_budget (month : string) (s : Store) :
  summary_status month s <> 404%nat /\
  (summary_status month s = 200%nat \/ summary_status month s = 500%nat) /\
  ((forall d, In d (budget s) -> BudgetCreate.month (data d) <> month) ->
   budget_status month s = 404%nat /\
   exists r, summary month s = Return r /\
     Summary.income r = 0 /\
     forall row, In row (Summary.categories r) ->
       CategorySummary.target row = 0 /\ CategorySummary.progress row = None).
Proof.
  unfold summary_status, budget_status, GET_api_summary, GET_api_budgets.
  rewrite summary_returns. unfold status_code at 1 2 3.
  split; [destruct (forallb isfinite _); discriminate|].
  split; [destruct (forallb isfinite _); auto|]. intro H.
  pose proof (no_budget_find_one month s H) as Hnone. split.
  - unfold get_budget. now rewrite Hnone.
  - eexists. split; [reflexivity|]. simpl.
    unfold income_of, allocations_map_of, allocations_of. rewrite Hnone.
    split; [reflexivity|].
    intros row Hrow. apply in_map_iff in Hrow. destruct Hrow as [item [<- _]].
    split; reflexivity.
Qed.

Lemma summary_without_budget_witness :
  budget_status "2024-02" scenario_store = 404%nat /\
  exists r, summary "2024-02" scenario_store = Return r /\
    Summary.income r = 0 /\
    forall row, In row (Summary.categories r) ->
      CategorySummary.target row = 0 /\ CategorySummary.progress row = None.
Proof.
  apply (proj2 (proj2 (summary_without_budget "2024-02" scenario_store))).
  vm_compute. intros d [<-|[]]. discriminate.
Defined.

(** ** Progress *)

(** C3, as stated, fails on the infinity: with a target of 2^-1000, which is
    above 0, and an expense of 2^1000, both accepted by the API, the row's
    progress is infinite, and the summary is answered 500. *)
Lemma progress_overflows :
  exists r row, summary "2024-01" overflow_store = Return r /\
    Summary.categories r = [row] /\
    gt (CategorySummary.target row) 0 = true /\
    CategorySummary.progress row = Some infinity /\
    summary_status "2024-01" overflow_store = 500%nat.
Proof.
  do 2 eexists. split; [vm_compute; reflexivity|]. repeat split.
Qed.

(** C3 (amended): [summary] returns without raising, so no division by zero
    happens.  In every row a target above 0 gives as progress the binary64
    value of [spent / target * 100], computed with a divisor that is not
    zero; that value may be an infinity or NaN.  A target that is zero, or
    in any other way not above 0, gives no progress at all, whatever was
    spent. *)
Theorem progress_guarded (month : string) (s : Store) :
  summary month s <> Raise ZeroDivisionError /\
  exists r, summary month s = Return r /\
    forall row, In row (Summary.categories r) ->
      (gt (CategorySummary.target row) 0 = true ->
       (CategorySummary.target row =? 0) = false /\
       CategorySummary.progress row =
         Some (CategorySummary.spent row / CategorySummary.target row * 100)) /\
      ((CategorySummary.target row =? 0) = true ->
       CategorySummary.progress row = None) /\
      (gt (CategorySummary.target row) 0 = false ->
       CategorySummary.progress row = None) /\
      (forall p, CategorySummary.progress row = Some p ->
                 gt (CategorySummary.target row) 0 = true).
Proof.
  rewrite summary_returns. split; [discriminate|].
  eexists. split; [reflexivity|]. simpl.
  intros row Hrow. apply in_map_iff in Hrow. destruct Hrow as [item [<- _]].
  simpl. unfold progress_of.
  destruct (gt (get_default (allocations_map_of month s) (fst item) 0) 0) eqn:E.
  - split; [|split; [|split]]; auto.
    + intros _. split; [now apply gt_0_nonzero | reflexivity].
    + intro H0. apply eq_0_not_gt in H0. congruence.
    + discriminate.
  - split; [|split; [|split]]; auto; discriminate.
Qed.

Lemma progress_guarded_witness :
  exists r, summary "2024-01" scenario_store = Return r /\
    forall row, In row (Summary.categories r) ->
      CategorySummary.progress row =
        Some (CategorySummary.spent row / CategorySummary.target row * 100).
Proof.
  destruct (proj2 (progress_guarded "2024-01" scenario_store)) as [r [Hr H]].
  exists r. split; [exact Hr|]. intros row Hrow. apply (H row Hrow).
  vm_compute in Hr. injection Hr as <-. destruct Hrow as [<-|[]]. reflexivity.
Defined.

(** ** Rows and categories *)

(** C10: in a store produced by the API, [summary] emits the rows of the
    stored categories one for one and in order: each row carries the id,
    name and emoji of its category, the row ids are pairwise distinct, and
    there are as many rows as categories, for every month and whatever the
    budgets and expenses are. *)
Theorem one_row_per_category (month : string) (s : Store) :
  reachable s ->
  exists r, summary month s = Return r /\
    map (fun row => (CategorySummary.id row, CategorySummary.name row,
                     CategorySummary.emoji row))
        (Summary.categories r) =
    map (fun c => (str (_id c), Category.name (data c), Category.emoji (data c)))
        (category s) /\
    NoDup (map CategorySummary.id (Summary.categories r)) /\
    List.length (Summary.categories r) = List.length (category s).
Proof.
  intro Hr. apply reachable_wf in Hr.
  eexists. split; [apply summary_returns|]. simpl.
  split; [|split].
  - unfold items. rewrite (categories_of_wf s Hr), !map_map. reflexivity.
  - rewrite row_ids. apply dict_comp_NoDup.
  - unfold items. rewrite (categories_of_wf s Hr), !length_map. reflexivity.
Qed.

Lemma one_row_per_category_witness :
  exists r, summary "2024-01" twin_store = Return r /\
    map (fun row => (CategorySummary.id row, CategorySummary.name row,
                     CategorySummary.emoji row))
        (Summary.categories r) =
    map (fun c => (str (_id c), Category.name (data c), Category.emoji (data c)))
        (category twin_store) /\
    NoDup (map CategorySummary.id (Summary.categories r)) /\
    List.length (Summary.categories r) = List.length (category twin_store).
Proof.
  apply (one_row_per_category "2024-01" twin_store).
  unfold twin_store. repeat apply reachable_serve. apply reachable_empty.
Defined.

(** ** The scenario of the specification *)

(** C9: after creating category Food (id [C1_id]), upserting the 2024-01
    budget with income 1000 and target 300 for it, and adding expenses of
    100 and 50, the summary of 2024-01 is answered 200 and has income 1000,
    total target 300, total spent 150, remaining 850 and the single row of
    Food with target 300, spent 150 and progress 50. *)
Theorem scenario_summary :
  category scenario_store =
    [{| _id := 1%nat; data := {| Category.name := "Food"; Category.emoji := Some "🍔" |} |}] /\
  C1_id = str 1%nat /\
  GET_api_summary "2024-01" scenario_store =
    Return {| Summary.month := "2024-01";
              Summary.income := 1000;
              Summary.total_target := 300;
              Summary.total_spent := 150;
              Summary.remaining := 850;
              Summary.categories :=
                [{| CategorySummary.id := C1_id;
                    CategorySummary.name := "Food";
                    CategorySummary.emoji := Some "🍔";
                    CategorySummary.target := 300;
                    CategorySummary.spent := 150;
                    CategorySummary.progress := Some 50 |}] |} /\
  summary_status "2024-01" scenario_store = 200%nat.
Proof.
  split; [reflexivity|]. split; [reflexivity|].
  split; vm_compute; reflexivity.
Qed.

(** ** Budget upsert *)

Lemma filter_app_single {D} (q : Doc D -> bool) (c : Collection D) (d : Doc D) :
  q d = true -> (forall d', In d' c -> q d' = false) -> filter q (c ++ [d]) = [d].
Proof.
  intros Hd Hc. rewrite filter_app. simpl. rewrite Hd.
  induction c as [|d' c IH]; simpl; [reflexivity|].
  rewrite (Hc d') by now left. apply IH. intros x Hx. apply Hc. now right.
Qed.

Lemma delete_many_none {D} (q : Doc D -> bool) (c : Collection D) (d : Doc D) :
  In d (delete_many c q) -> q d = false.
Proof.
  unfold delete_many. rewrite filter_In. intros [_ H].
  now apply negb_true_iff.
Qed.

(** C6: after [create_budget] for month M, whatever the store held before,
    the budget collection is the old one without its documents for M,
    followed by the new document; so exactly one budget for M exists, it
    holds the fields of this call, and the budgets of other months are
    untouched.  In particular this holds after a second upsert for M. *)
Theorem upsert_leaves_one (b : BudgetCreate.t) (s : Store) :
  let M := BudgetCreate.month b in
  let s' := fst (create_budget b s) in
  let new := {| _id := next_oid s; data := b |} in
  budget s' = delete_many (budget s) (budget_month M) ++ [new] /\
  find (delete_many (budget s) (budget_month M)) (budget_month M) = [] /\
  find (budget s') (budget_month M) = [new] /\
  find (budget s') (fun d => negb (budget_month M d)) =
    find (budget s) (fun d => negb (budget_month M d)) /\
  forall b2, BudgetCreate.month b2 = M ->
    exists o, find (budget (fst (create_budget b2 s'))) (budget_month M)
              = [{| _id := o; data := b2 |}].
Proof.
  intros M s' new.
  assert (Hsingle : forall (b0 : BudgetCreate.t) (s0 : Store),
    find (budget (fst (create_budget b0 s0))) (budget_month (BudgetCreate.month b0))
    = [{| _id := next_oid s0; data := b0 |}]).
  { intros b0 s0. simpl. unfold insert_one, find.
    apply filter_app_single.
    - unfold budget_month. simpl. apply String.eqb_refl.
    - intros d' Hd'. now apply delete_many_none in Hd'. }
  split; [reflexivity|]. split; [|split; [apply Hsingle|split]].
  - unfold find, delete_many. induction (budget s) as [|d c IH]; simpl; [reflexivity|].
    destruct (budget_month M d) eqn:E; simpl; [assumption|]. now rewrite E.
  - subst s'. simpl. unfold insert_one, find, delete_many.
    rewrite filter_app. simpl.
    assert (Hnew : budget_month M new = true)
      by (unfold budget_month; simpl; apply String.eqb_refl).
    subst M new. rewrite Hnew. simpl. rewrite app_nil_r.
    induction (budget s) as [|d c IH]; simpl; [reflexivity|].
    destruct (budget_month (BudgetCreate.month b) d) eqn:E; simpl; [assumption|].
    rewrite E. simpl. now f_equal.
  - intros b2 Hb2. exists (next_oid s'). rewrite <- Hb2. apply Hsingle.
Qed.

Lemma upsert_leaves_one_witness :
  exists o, find (budget (fst (create_budget
                   {| BudgetCreate.month := "2024-01"; BudgetCreate.income := 2000;
                      BudgetCreate.allocations := [] |}
                   (fst (create_budget
                      {| BudgetCreate.month := "2024-01"; BudgetCreate.income := 1000;
                         BudgetCreate.allocations := [] |} scenario_store)))))
            (budget_month "2024-01")
          = [{| _id := o;
                data := {| BudgetCreate.month := "2024-01"; BudgetCreate.income := 2000;
                           BudgetCreate.allocations := [] |} |}].
Proof.
  apply (proj2 (proj2 (proj2 (proj2 (upsert_leaves_one
    {| BudgetCreate.month := "2024-01"; BudgetCreate.income := 1000;
       BudgetCreate.allocations := [] |} scenario_store))))).
  reflexivity.
Defined.

(** ** The keys and values of a dict built by a loop *)

Lemma existsb_eqb_In (k : string) (l : list string) :
  existsb (String.eqb k) l = true <-> In k l.
Proof.
  rewrite existsb_exists. split.
  - intros [x [Hx E]]. apply String.eqb_eq in E. now subst.
  - intro H. exists k. split; [assumption | apply String.eqb_refl].
Qed.

Lemma In_first_keys (k : string) (seen ks : list string) :
  In k (first_keys seen ks) <-> In k ks /\ ~ In k seen.
Proof.
  revert seen. induction ks as [|k0 ks IH]; intro seen; simpl; [tauto|].
  destruct (existsb (String.eqb k0) seen) eqn:E.
  - apply existsb_eqb_In in E. rewrite IH. split; [tauto|].
    intros [[->|H] Hn]; tauto.
  - assert (Hk0 : ~ In k0 seen).
    { intro H. apply existsb_eqb_In in H. congruence. }
    simpl. rewrite IH, in_app_iff. simpl.
    destruct (string_dec k0 k) as [->|Hne]; [tauto|]. tauto.
Qed.

Section FoldKeys.
Context {A V : Type} (key : A -> string) (val : dict V -> A -> V).

Let assign (d : dict V) (x : A) : dict V := setitem (key x) (val d x) d.

Lemma fold_setitem_first_keys (xs : list A) (acc : dict V) :
  keys (fold_left assign xs acc) = keys acc ++ first_keys (keys acc) (map key xs).
Proof.
  revert acc. induction xs as [|x xs IH]; intro acc; simpl.
  - now rewrite app_nil_r.
  - rewrite IH. unfold assign.
    destruct (existsb (String.eqb (key x)) (keys acc)) eqn:E.
    + apply existsb_eqb_In in E. now rewrite keys_setitem_in.
    + assert (Hk : ~ In (key x) (keys acc)).
      { intro H. apply existsb_eqb_In in H. congruence. }
      rewrite keys_setitem_notin by assumption.
      now rewrite <- app_assoc.
Qed.
End FoldKeys.

Lemma get_default_cons {V} (k' k : string) (v' : V) (d : dict V) (default : V) :
  get_default ((k', v') :: d) k default =
  if String.eqb k' k then v' else get_default d k default.
Proof.
  unfold get_default. simpl. now destruct (String.eqb k' k).
Qed.


Lemma values_by_keys {V} (d : dict V) (default : V) :
  NoDup (keys d) -> values d = map (fun k => get_default d k default) (keys d).
Proof.
  unfold values, keys. induction d as [|[k v] d IH]; intro H; simpl; [reflexivity|].
  inversion H as [|x xs Hnotin Hd]; subst.
  rewrite get_default_cons, String.eqb_refl. f_equal.
  rewrite (IH Hd), !map_map. apply map_ext_in. intros [k' v'] Hin. simpl.
  rewrite get_default_cons.
  destruct (String.eqb_spec k k') as [->|_]; [|reflexivity].
  exfalso. apply Hnotin. apply in_map_iff. now exists (k', v').
Qed.

(** ** Spending per category *)







(** ** Targets per category *)

Lemma get_assign_unnamed (k : string) (l : list Allocation.t) (acc : dict float) :
  existsb (names k) l = false ->
  get (fold_left assign_target l acc) k = get acc k.
Proof.
  revert acc. induction l as [|a l IH]; intros acc H; simpl in *; [reflexivity|].
  apply orb_false_iff in H. destruct H as [Ha Hl].
  rewrite (IH _ Hl). unfold assign_target. apply get_setitem_other.
  unfold names in Ha. now apply String.eqb_neq.
Qed.

Lemma get_last_write (l1 l2 : list Allocation.t) (a : Allocation.t) :
  existsb (names (Allocation.category_id a)) l2 = false ->
  get (build_allocations_map (l1 ++ a :: l2)) (Allocation.category_id a)
  = Some (Allocation.target a).
Proof.
  intro H. unfold build_allocations_map.
  rewrite fold_left_app. simpl.
  rewrite (get_assign_unnamed _ _ _ H). apply get_setitem_same.
Qed.

Lemma get_last_target (k : string) (l : list Allocation.t) (acc : dict float) :
  get (fold_left assign_target l acc) k =
  match last_target k l with
  | Some v => Some v
  | None => get acc k
  end.
Proof.
  revert acc. induction l as [|a l IH]; intro acc; simpl; [reflexivity|].
  rewrite IH. destruct (last_target k l); [reflexivity|].
  unfold assign_target, names. key_cases (Allocation.category_id a) k.
  - apply get_setitem_same.
  - now apply get_setitem_other.
Qed.

Lemma get_default_target_of (l : list Allocation.t) (k : string) :
  get_default (build_allocations_map l) k 0 = target_of l k.
Proof.
  unfold get_default, build_allocations_map, target_of.
  rewrite get_last_target. now destruct (last_target k l).
Qed.

Lemma allocations_map_keys (l : list Allocation.t) :
  keys (build_allocations_map l) = target_keys l.
Proof.
  unfold build_allocations_map, target_keys.
  change (fold_left assign_target) with
    (fold_left (fun d x => setitem (Allocation.category_id x) (Allocation.target x) d)).
  now rewrite (fold_setitem_first_keys Allocation.category_id (fun _ => Allocation.target)).
Qed.

Lemma allocations_map_NoDup (l : list Allocation.t) :
  NoDup (keys (build_allocations_map l)).
Proof.
  unfold build_allocations_map.
  change (fold_left assign_target) with
    (fold_left (fun d x => setitem (Allocation.category_id x) (Allocation.target x) d)).
  apply (fold_setitem_NoDup Allocation.category_id (fun _ => Allocation.target)).
  constructor.
Qed.

Lemma total_target_keys (l : list Allocation.t) :
  sum (values (build_allocations_map l)) = sum (map (target_of l) (target_keys l)).
Proof.
  rewrite (values_by_keys _ 0 (allocations_map_NoDup l)), allocations_map_keys.
  f_equal. apply map_ext. intro k. apply get_default_target_of.
Qed.

(** C5: when the allocation list of the month's budget names one category
    id several times, the target of the last allocation naming it is the one
    in the map: the row of that category shows it, and [total_target] adds
    up one target per category id named, that id among them, in order of
    first appearance: the target of the last allocation that names the id. *)
Theorem last_write_wins (month : string) (s : Store) (d : Doc BudgetCreate.t)
    (l1 l2 : list Allocation.t) (a : Allocation.t) :
  find_one (budget s) (budget_month month) = Some d ->
  BudgetCreate.allocations (data d) = l1 ++ a :: l2 ->
  (forall a', In a' l2 -> Allocation.category_id a' <> Allocation.category_id a) ->
  exists r, summary month s = Return r /\
    get (build_allocations_map (BudgetCreate.allocations (data d)))
        (Allocation.category_id a) = Some (Allocation.target a) /\
    (forall row, In row (Summary.categories r) ->
       CategorySummary.id row = Allocation.category_id a ->
       CategorySummary.target row = Allocation.target a) /\
    target_of (BudgetCreate.allocations (data d)) (Allocation.category_id a)
      = Allocation.target a /\
    In (Allocation.category_id a) (target_keys (BudgetCreate.allocations (data d))) /\
    Summary.total_target r =
      sum (map (target_of (BudgetCreate.allocations (data d)))
               (target_keys (BudgetCreate.allocations (data d)))).
Proof.
  intros Hd Hl Hlast.
  assert (Hex : existsb (names (Allocation.category_id a)) l2 = false).
  { destruct (existsb (names (Allocation.category_id a)) l2) eqn:E; [|reflexivity].
    apply existsb_exists in E. destruct E as [a' [Hin Hn]].
    apply String.eqb_eq in Hn. now apply Hlast in Hin. }
  assert (Hmap : allocations_map_of month s
                 = build_allocations_map (BudgetCreate.allocations (data d))).
  { unfold allocations_map_of, allocations_of. simpl. now rewrite Hd. }
  assert (Hget : get (build_allocations_map (BudgetCreate.allocations (data d)))
                     (Allocation.category_id a) = Some (Allocation.target a)).
  { rewrite Hl. now apply get_last_write. }
  eexists. split; [apply summary_returns|]. simpl. rewrite Hmap.
  split; [exact Hget|]. split; [|split; [|split]].
  - intros row Hrow Hid. apply in_map_iff in Hrow. destruct Hrow as [item [<- _]].
    simpl in *. unfold get_default. now rewrite Hid, Hget.
  - rewrite <- get_default_target_of. unfold get_default. now rewrite Hget.
  - unfold target_keys. apply In_first_keys. split; [|tauto].
    rewrite Hl, map_app, in_app_iff. right. now left.
  - apply total_target_keys.
Qed.

Lemma last_write_wins_witness :
  exists r, summary "2024-01" dup_store = Return r /\
    get (build_allocations_map
           [{| Allocation.category_id := C1_id; Allocation.target := 300 |};
            {| Allocation.category_id := C1_id; Allocation.target := 500 |}])
        C1_id = Some 500 /\
    (forall row, In row (Summary.categories r) ->
       CategorySummary.id row = C1_id -> CategorySummary.target row = 500) /\
    target_of [{| Allocation.category_id := C1_id; Allocation.target := 300 |};
               {| Allocation.category_id := C1_id; Allocation.target := 500 |}] C1_id
      = 500 /\
    In C1_id
       (target_keys
          [{| Allocation.category_id := C1_id; Allocation.target := 300 |};
           {| Allocation.category_id := C1_id; Allocation.target := 500 |}]) /\
    Summary.total_target r =
      sum (map (target_of
                  [{| Allocation.category_id := C1_id; Allocation.target := 300 |};
                   {| Allocation.category_id := C1_id; Allocation.target := 500 |}])
               (target_keys
                  [{| Allocation.category_id := C1_id; Allocation.target := 300 |};
                   {| Allocation.category_id := C1_id; Allocation.target := 500 |}])).
Proof.
  apply (last_write_wins "2024-01" dup_store
           {| _id := 2%nat;
              data := {| BudgetCreate.month := "2024-01"; BudgetCreate.income := 1000;
                         BudgetCreate.allocations :=
                           [{| Allocation.category_id := C1_id; Allocation.target := 300 |};
                            {| Allocation.category_id := C1_id; Allocation.target := 500 |}] |} |}
           [{| Allocation.category_id := C1_id; Allocation.target := 300 |}] []
           {| Allocation.category_id := C1_id; Allocation.target := 500 |}).
  - reflexivity.
  - reflexivity.
  - intros a' [].
Defined.

(** ** Orphan references *)







(** ** Generated ids are fresh *)

Lemma In_ids_insert {D} (c : Collection D) (o o' : ObjectId) (d : D) :
  In o' (ids (insert_one c o d)) <-> In o' (ids c) \/ o' = o.
Proof.
  unfold ids, insert_one. rewrite map_app, in_app_iff. simpl.
  intuition congruence.
Qed.

Lemma In_ids_delete {D} (c : Collection D) (q : Doc D -> bool) (o : ObjectId) :
  In o (ids (delete_many c q)) -> In o (ids c).
Proof.
  unfold ids, delete_many. rewrite !in_map_iff.
  intros [d [E Hd]]. apply filter_In in Hd. exists d. tauto.
Qed.

Lemma ids_fresh_empty : ids_fresh empty.
Proof.
  intros o []. 
Qed.

Lemma ids_fresh_serve (r : Request) (s : Store) :
  ids_fresh s -> ids_fresh (serve r s).
Proof.
  unfold ids_fresh. intro H. destruct r as [b|b|b]; simpl.
  - unfold POST_api_categories, endpoint.
    destruct (Category.validate b); [|exact H]. simpl.
    intros o Ho. rewrite in_app_iff, In_ids_insert in Ho.
    destruct Ho as [[Ho| ->]|Ho]; [| lia |];
      (enough (o < next_oid s)%nat by lia); apply H; rewrite in_app_iff; tauto.
  - unfold POST_api_budgets, endpoint.
    destruct (BudgetCreate.validate b); [|exact H]. simpl.
    intros o Ho. rewrite !in_app_iff, In_ids_insert in Ho.
    destruct Ho as [Ho|[[Ho| ->]|Ho]]; [| | lia |];
      (enough (o < next_oid s)%nat by lia); apply H; rewrite !in_app_iff;
      try apply In_ids_delete in Ho; tauto.
  - unfold POST_api_expenses, endpoint.
    destruct (ExpenseCreate.validate b); [|exact H]. simpl.
    intros o Ho. rewrite !in_app_iff, In_ids_insert in Ho.
    destruct Ho as [Ho|[Ho|[Ho| ->]]]; [| | | lia];
      (enough (o < next_oid s)%nat by lia); apply H; rewrite !in_app_iff; tauto.
Qed.

Lemma reachable_fresh (s : Store) : reachable s -> ids_fresh s.
Proof.
  induction 1 as [|r s _ IH]; [apply ids_fresh_empty | now apply ids_fresh_serve].
Qed.

Lemma find_one_inserted {D} (c : Collection D) (o : ObjectId) (d : D) :
  (forall o', In o' (ids c) -> (o' < o)%nat) ->
  find_one (insert_one c o d) (by_id o) = Some {| _id := o; data := d |}.
Proof.
  unfold find_one, insert_one, by_id. induction c as [|x c IH]; intro H; simpl.
  - now rewrite Nat.eqb_refl.
  - assert (Hx : (_id x < o)%nat) by (apply H; now left).
    replace (_id x =? o)%nat with false by (symmetry; apply Nat.eqb_neq; lia).
    apply IH. intros o' Ho'. apply H. now right.
Qed.

Lemma created_returned (s : Store) :
  ids_fresh s ->
  (forall c, snd (create_category c s)
             = Return (Some {| id := str (next_oid s); body := c |})) /\
  (forall b, snd (create_budget b s)
             = Return (Some {| id := str (next_oid s); body := b |})) /\
  (forall e, snd (add_expense e s)
             = Return (Some {| id := str (next_oid s); body := e |})).
Proof.
  intro Hr. unfold ids_fresh in Hr.
  split; [|split]; intro x; simpl; rewrite ObjectId_of_str; simpl.
  - rewrite find_one_inserted; [reflexivity|].
    intros o Ho. apply Hr. rewrite in_app_iff. tauto.
  - rewrite find_one_inserted; [reflexivity|].
    intros o Ho. apply In_ids_delete in Ho. apply Hr. rewrite !in_app_iff. tauto.
  - rewrite find_one_inserted; [reflexivity|].
    intros o Ho. apply Hr. rewrite !in_app_iff. tauto.
Qed.

(** ** Validation of request bodies *)

Lemma required_ge0_nonneg (x : option float) (v : float) :
  required_ge0 x = Return v -> x = Some v /\ ge v 0 = true.
Proof.
  unfold required_ge0, required. destruct x as [q|]; simpl; [|discriminate].
  destruct (ge q 0) eqn:E; [|discriminate].
  intros [= <-]. split; [reflexivity | exact E].
Qed.

Lemma for_each_Forall {A B} (f : A -> PyResult B) (P : B -> Prop) (xs : list A) (ys : list B) :
  (forall x y, f x = Return y -> P y) ->
  for_each f xs = Return ys -> Forall P ys.
Proof.
  intro Hf. revert ys. induction xs as [|x xs IH]; simpl; intro ys.
  - intros [= <-]. constructor.
  - destruct (f x) as [y|] eqn:Ey; simpl; [|discriminate].
    destruct (for_each f xs) as [ys'|]; simpl; [|discriminate].
    intros [= <-]. constructor; [now apply (Hf x) | now apply IH].
Qed.

Lemma Allocation_validate_target (b : AllocationBody) (a : Allocation.t) :
  Allocation.validate b = Return a -> ge (Allocation.target a) 0 = true.
Proof.
  unfold Allocation.validate.
  destruct (required (ab_category_id b)); simpl; [|discriminate].
  destruct (required_ge0 (ab_target b)) as [v|] eqn:E; simpl; [|discriminate].
  intros [= <-]. simpl. now apply required_ge0_nonneg in E.
Qed.

(** The targets of a budget that [create_budget] receives are checked. *)
Lemma BudgetCreate_validate_targets (body : BudgetBody) (b : BudgetCreate.t) :
  BudgetCreate.validate body = Return b ->
  Forall (fun a => ge (Allocation.target a) 0 = true) (BudgetCreate.allocations b).
Proof.
  unfold BudgetCreate.validate.
  destruct (required (bb_month body)); simpl; [|discriminate].
  destruct (required (bb_income body)); simpl; [|discriminate].
  destruct (required (bb_allocations body)) as [l|]; simpl; [|discriminate].
  destruct (for_each Allocation.validate l) as [al|] eqn:E; simpl; [|discriminate].
  intros [= <-]. simpl.
  exact (for_each_Forall _ _ _ _ Allocation_validate_target E).
Qed.

(** The [Budget] schema of [schemas.py] admits no negative income. *)
Lemma Budget_validate_income (body : BudgetBody) (b : Budget.t) :
  Budget.validate body = Return b -> ge (Budget.income b) 0 = true.
Proof.
  unfold Budget.validate.
  destruct (required (bb_month body)); simpl; [|discriminate].
  destruct (required_ge0 (bb_income body)) as [v|] eqn:E; simpl; [|discriminate].
  destruct (for_each Allocation.validate _); simpl; [|discriminate].
  intros [= <-]. simpl. now apply required_ge0_nonneg in E.
Qed.

(** C7: [POST /api/budgets] validates its body against [BudgetCreate], whose
    [income] carries no bound, and not against the [Budget] schema: a body
    with income -5, which [Budget] rejects, is answered 200 and stored with
    its negative income. *)
Theorem negative_income_stored :
  let body := budget_body "2024-01" (-5) [] in
  Budget.validate body = Raise RequestValidationError /\
  status_code (doc_floats BudgetCreate_floats) (snd (POST_api_budgets body empty))
    = 200%nat /\
  budget (fst (POST_api_budgets body empty)) =
    [{| _id := 1%nat;
        data := {| BudgetCreate.month := "2024-01"; BudgetCreate.income := -5;
                   BudgetCreate.allocations := [] |} |}] /\
  exists d, In d (budget (fst (POST_api_budgets body empty))) /\
            (BudgetCreate.income (data d) <? 0) = true.
Proof.
  cbv zeta. split; [reflexivity|]. split; [reflexivity|]. split; [reflexivity|].
  eexists. split; [left; reflexivity|]. reflexivity.
Qed.

(** The amount of an expense is not checked either: a body with amount -5,
    which the [Expense] schema rejects, is answered 200 and stored. *)
Lemma negative_amount_stored :
  let body := expense_body "2024-01" "ffff" (-5) None in
  Expense.validate body = Raise RequestValidationError /\
  status_code (doc_floats ExpenseCreate_floats) (snd (POST_api_expenses body empty))
    = 200%nat /\
  expense (fst (POST_api_expenses body empty)) =
    [{| _id := 1%nat;
        data := {| ExpenseCreate.month := "2024-01"; ExpenseCreate.category_id := "ffff";
                   ExpenseCreate.amount := -5; ExpenseCreate.note := None |} |}].
Proof.
  repeat split; reflexivity.
Qed.

(** ** Adding an expense *)

(** C8, as stated, fails on [spent_on]: a body that the [Expense] schema
    accepts with a date is stored without it, so the stored document read
    back is not the expense that was given. *)
Lemma add_drops_spent_on :
  let on := {| year := 2024; month_of_year := 1; day := 15 |} in
  let body := expense_body "2024-01" "ffff" 5 (Some (IsDate on)) in
  let given := {| Expense.month := "2024-01"; Expense.category_id := "ffff";
                  Expense.amount := 5; Expense.note := None;
                  Expense.spent_on := Some on |} in
  Expense.validate body = Return given /\
  status_code (doc_floats ExpenseCreate_floats) (snd (POST_api_expenses body empty))
    = 200%nat /\
  exists d, expense (fst (POST_api_expenses body empty)) = [d] /\
            stored_expense d <> given.
Proof.
  cbv zeta. split; [reflexivity|]. split; [reflexivity|].
  eexists. split; [reflexivity|]. discriminate.
Qed.

(** C8 (amended): [POST /api/expenses] takes month, category_id, amount and
    an optional note; a [spent_on] in the body is ignored.  A body with the
    three required fields and an amount that is not negative is appended as
    one new document holding exactly its month, category_id, amount and
    note; categories and budgets are left as they were.  In a store produced
    by the API the answer is 200 when the amount is finite; an infinite
    amount is stored all the same, and the answer is 500. *)
Theorem add_expense_appends (m c : string) (a : float) (n : option string)
    (so : option DateValue) (s : Store) :
  ge a 0 = true ->
  let body := {| eb_month := Some m; eb_category_id := Some c; eb_amount := Some a;
                 eb_note := n; eb_spent_on := so |} in
  let stored := {| ExpenseCreate.month := m; ExpenseCreate.category_id := c;
                   ExpenseCreate.amount := a; ExpenseCreate.note := n |} in
  let s' := fst (POST_api_expenses body s) in
  expense s' = expense s ++ [{| _id := next_oid s; data := stored |}] /\
  category s' = category s /\ budget s' = budget s /\
  POST_api_expenses body s =
    POST_api_expenses {| eb_month := Some m; eb_category_id := Some c;
                         eb_amount := Some a; eb_note := n; eb_spent_on := None |} s /\
  (reachable s ->
   status_code (doc_floats ExpenseCreate_floats) (snd (POST_api_expenses body s))
   = if isfinite a then 200%nat else 500%nat).
Proof.
  intros _ body stored s'. repeat split.
  intro Hr. apply reachable_fresh in Hr.
  destruct (created_returned s Hr) as [_ [_ He]].
  subst body. unfold POST_api_expenses, endpoint.
  cbn [ExpenseCreate.validate required bind eb_month eb_category_id eb_amount eb_note].
  rewrite He. unfold status_code, doc_floats, ExpenseCreate_floats. simpl.
  now destruct (isfinite a).
Qed.

Lemma add_expense_appends_witness :
  expense (fst (POST_api_expenses
                  (expense_body "2024-01" "ffff" 5
                     (Some (IsDate {| year := 2024; month_of_year := 1; day := 15 |})))
                  empty))
  = [{| _id := 1%nat;
        data := {| ExpenseCreate.month := "2024-01"; ExpenseCreate.category_id := "ffff";
                   ExpenseCreate.amount := 5; ExpenseCreate.note := None |} |}] /\
  status_code (doc_floats ExpenseCreate_floats)
    (snd (POST_api_expenses
            (expense_body "2024-01" "ffff" 5
               (Some (IsDate {| year := 2024; month_of_year := 1; day := 15 |})))
            empty)) = 200%nat.
Proof.
  pose proof (add_expense_appends "2024-01" "ffff" 5 None
                (Some (IsDate {| year := 2024; month_of_year := 1; day := 15 |}))
                empty eq_refl) as H.
  cbv zeta in H. destruct H as [H1 [_ [_ [_ H5]]]].
  split; [exact H1 | exact (H5 reachable_empty)].
Defined.

(** ** What the creating handlers return *)

(** X1: in a store produced by the API, each of the three creating handlers
    answers with the document it has just stored: the public [id] is the
    string of the newly generated id and the body is the validated input. *)
Theorem create_returns_created (s : Store) :
  reachable s ->
  (forall c, snd (create_category c s)
             = Return (Some {| id := str (next_oid s); body := c |})) /\
  (forall b, snd (create_budget b s)
             = Return (Some {| id := str (next_oid s); body := b |})) /\
  (forall e, snd (add_expense e s)
             = Return (Some {| id := str (next_oid s); body := e |})).
Proof.
  intro Hr. apply created_returned. now apply reachable_fresh.
Qed.

Lemma create_returns_created_witness :
  snd (add_expense ghost_expense scenario_store)
  = Return (Some {| id := str (next_oid scenario_store); body := ghost_expense |}).
Proof.
  apply (create_returns_created scenario_store).
  unfold scenario_store. repeat apply reachable_serve. apply reachable_empty.
Defined.

(** ** Reading a budget back *)

Lemma find_one_some_first {D} (c : Collection D) (q : Doc D -> bool) (d : Doc D) :
  In d c -> q d = true -> exists d', find_one c q = Some d' /\ In d' c /\ q d' = true.
Proof.
  unfold find_one. induction c as [|x c IH]; simpl; [tauto|].
  intros Hin Hq. destruct (q x) eqn:E.
  - exists x. auto.
  - destruct Hin as [->|Hin]; [congruence|].
    destruct (IH Hin Hq) as [d' [Hf [Hin' Hq']]]. exists d'. auto.
Qed.

(** X2: [get_budget] answers 404 with its message exactly when the store has
    no budget for the month; otherwise it answers with a stored budget of
    that month, its [_id] rendered as [id]. *)
Theorem get_budget_found_or_404 (month : string) (s : Store) :
  ((forall d, In d (budget s) -> BudgetCreate.month (data d) <> month) ->
   get_budget month s = Raise (HTTPException 404 "Budget not found for month")) /\
  (forall d, In d (budget s) -> BudgetCreate.month (data d) = month ->
   exists d', In d' (budget s) /\ BudgetCreate.month (data d') = month /\
     get_budget month s = Return (Some {| id := str (_id d'); body := data d' |})).
Proof.
  split.
  - intro H. unfold get_budget. now rewrite (no_budget_find_one month s H).
  - intros d Hin Hm.
    destruct (find_one_some_first (budget s) (budget_month month) d Hin)
      as [d' [Hf [Hin' Hq]]].
    + unfold budget_month. now apply String.eqb_eq.
    + exists d'. split; [assumption|]. split.
      * unfold budget_month in Hq. now apply String.eqb_eq.
      * unfold get_budget. simpl. now rewrite Hf.
Qed.

Lemma get_budget_found_or_404_witness :
  get_budget "2024-02" scenario_store
  = Raise (HTTPException 404 "Budget not found for month").
Proof.
  apply (proj1 (get_budget_found_or_404 "2024-02" scenario_store)).
  vm_compute. intros d [<-|[]]. discriminate.
Defined.

Lemma find_one_after_upsert (b : BudgetCreate.t) (s : Store) (month : string) :
  find_one (budget (fst (create_budget b s))) (budget_month month) =
  if String.eqb (BudgetCreate.month b) month
  then Some {| _id := next_oid s; data := b |}
  else find_one (budget s) (budget_month month).
Proof.
  simpl. unfold insert_one, find_one, delete_many.
  destruct (String.eqb_spec (BudgetCreate.month b) month) as [E|E].
  - subst month. induction (budget s) as [|d c IH]; simpl.
    + unfold budget_month. simpl. now rewrite String.eqb_refl.
    + destruct (budget_month (BudgetCreate.month b) d) eqn:Eb; simpl; [exact IH|].
      now rewrite Eb.
  - induction (budget s) as [|d c IH]; simpl.
    + unfold budget_month. simpl.
      now replace (String.eqb (BudgetCreate.month b) month) with false
        by (symmetry; now apply String.eqb_neq).
    + destruct (budget_month (BudgetCreate.month b) d) eqn:Eb; simpl.
      * assert (Hd : budget_month month d = false).
        { unfold budget_month in *. apply String.eqb_eq in Eb.
          apply String.eqb_neq. congruence. }
        now rewrite Hd.
      * destruct (budget_month month d); [reflexivity | exact IH].
Qed.

(** X3: after [create_budget b], [get_budget] on the month of [b] answers
    with [b] under its new id, whatever the store held for that month
    before, and on every other month it answers as it did before. *)
Theorem get_budget_after_upsert (b : BudgetCreate.t) (s : Store) (month : string) :
  get_budget month (fst (create_budget b s)) =
  if String.eqb (BudgetCreate.month b) month
  then Return (Some {| id := str (next_oid s); body := b |})
  else get_budget month s.
Proof.
  unfold get_budget. change (read db_budget ?x) with (budget x).
  rewrite find_one_after_upsert.
  now destruct (String.eqb (BudgetCreate.month b) month).
Qed.

(** ** At most one budget per month *)

Lemma budgets_of_after_upsert (b : BudgetCreate.t) (s : Store) (month : string) :
  budgets_of month (fst (create_budget b s)) =
  if String.eqb (BudgetCreate.month b) month
  then [{| _id := next_oid s; data := b |}]
  else budgets_of month s.
Proof.
  unfold budgets_of. simpl. unfold insert_one, find, delete_many.
  rewrite filter_app. simpl.
  replace (budget_month month {| _id := next_oid s; data := b |})
    with (String.eqb (BudgetCreate.month b) month) by reflexivity.
  destruct (String.eqb_spec (BudgetCreate.month b) month) as [E|E].
  - subst month. induction (budget s) as [|d c IH]; simpl; [reflexivity|].
    destruct (budget_month (BudgetCreate.month b) d) eqn:Eb; simpl; [exact IH|].
    now rewrite Eb.
  - rewrite app_nil_r. induction (budget s) as [|d c IH]; simpl; [reflexivity|].
    destruct (budget_month (BudgetCreate.month b) d) eqn:Eb; simpl.
    + assert (Hd : budget_month month d = false).
      { unfold budget_month in *. apply String.eqb_eq in Eb.
        apply String.eqb_neq. congruence. }
      now rewrite Hd.
    + destruct (budget_month month d); simpl; now rewrite IH.
Qed.

(** X4: every store produced by the API holds at most one budget per
    month. *)
Theorem one_budget_per_month (s : Store) (month : string) :
  reachable s -> (List.length (budgets_of month s) <= 1)%nat.
Proof.
  intro Hr. revert month. induction Hr as [|r s _ IH]; intro month.
  - simpl. lia.
  - destruct r as [b|b|b]; simpl.
    + unfold POST_api_categories, endpoint.
      destruct (Category.validate b); apply IH.
    + unfold POST_api_budgets, endpoint.
      destruct (BudgetCreate.validate b) as [x|]; [|apply IH].
      rewrite budgets_of_after_upsert.
      destruct (String.eqb (BudgetCreate.month x) month); [simpl; lia | apply IH].
    + unfold POST_api_expenses, endpoint.
      destruct (ExpenseCreate.validate b); apply IH.
Qed.

Lemma one_budget_per_month_witness :
  (List.length (budgets_of "2024-01" dup_store) <= 1)%nat.
Proof.
  apply (one_budget_per_month dup_store "2024-01").
  unfold dup_store. repeat apply reachable_serve. apply reachable_empty.
Defined.

(** ** Listing what was created *)

(** X5: in a store produced by the API, [list_categories] after
    [create_category] is the former listing followed by the new category
    under its new id, and that id was not listed before. *)
Theorem list_categories_after_create (c : Category.t) (s : Store) :
  reachable s ->
  list_categories (fst (create_category c s)) =
    list_categories s ++ [Some {| id := str (next_oid s); body := c |}] /\
  forall o, In (Some o) (list_categories s) -> id o <> str (next_oid s).
Proof.
  intro Hr. split.
  - unfold list_categories, get_documents. rewrite !find_all. simpl.
    unfold insert_one. now rewrite map_app.
  - intros o Ho. unfold list_categories, get_documents in Ho.
    rewrite find_all in Ho. apply in_map_iff in Ho.
    destruct Ho as [d [E Hd]]. simpl in E. injection E as <-. simpl.
    intro Heq. apply str_inj in Heq.
    apply reachable_fresh in Hr.
    assert (Hlt : (_id d < next_oid s)%nat).
    { apply Hr. rewrite in_app_iff. left. unfold ids. now apply in_map. }
    simpl in Hd. lia.
Qed.

Lemma list_categories_after_create_witness :
  list_categories (fst (create_category
                          {| Category.name := "Rent"; Category.emoji := None |}
                          scenario_store)) =
  list_categories scenario_store ++
  [Some {| id := str (next_oid scenario_store);
           body := {| Category.name := "Rent"; Category.emoji := None |} |}].
Proof.
  apply (list_categories_after_create
           {| Category.name := "Rent"; Category.emoji := None |} scenario_store).
  unfold scenario_store. repeat apply reachable_serve. apply reachable_empty.
Defined.

(** X6: [list_expenses] of a month holds only expenses of that month, and
    after [add_expense] it is the former listing, followed by the new
    expense under its new id when the expense is of that month. *)
Theorem list_expenses_by_month (month : string) (e : ExpenseCreate.t) (s : Store) :
  (forall o, In (Some o) (list_expenses month s) ->
             ExpenseCreate.month (body o) = month) /\
  ~ In None (list_expenses month s) /\
  list_expenses month (fst (add_expense e s)) =
    list_expenses month s ++
    (if String.eqb (ExpenseCreate.month e) month
     then [Some {| id := str (next_oid s); body := e |}]
     else []).
Proof.
  split; [|split].
  - intros o Ho. unfold list_expenses in Ho. apply in_map_iff in Ho.
    destruct Ho as [d [E Hd]]. simpl in E. injection E as <-. simpl.
    unfold find in Hd. apply filter_In in Hd. destruct Hd as [_ Hq].
    now apply String.eqb_eq.
  - unfold list_expenses. rewrite in_map_iff. intros [d [E _]]. discriminate.
  - unfold list_expenses. simpl. unfold insert_one, find.
    rewrite filter_app, map_app. simpl.
    replace (expense_month month {| _id := next_oid s; data := e |})
      with (String.eqb (ExpenseCreate.month e) month) by reflexivity.
    now destruct (String.eqb (ExpenseCreate.month e) month).
Qed.

(** ** Categories and expenses are only ever appended *)

Lemma serve_appends (r : Request) (s : Store) :
  exists lc le, category (serve r s) = category s ++ lc /\
                expense (serve r s) = expense s ++ le.
Proof.
  destruct r as [b|b|b]; simpl.
  - unfold POST_api_categories, endpoint. destruct (Category.validate b) as [c|].
    + exists [{| _id := next_oid s; data := c |}], []. simpl.
      now rewrite app_nil_r.
    + exists [], []. simpl. now rewrite !app_nil_r.
  - unfold POST_api_budgets, endpoint. destruct (BudgetCreate.validate b);
      exists [], []; simpl; now rewrite !app_nil_r.
  - unfold POST_api_expenses, endpoint. destruct (ExpenseCreate.validate b) as [e|].
    + exists [], [{| _id := next_oid s; data := e |}]. simpl.
      now rewrite app_nil_r.
    + exists [], []. simpl. now rewrite !app_nil_r.
Qed.

(** X7: whatever write requests are served, in whatever order, the stored
    categories and expenses stay where they are, unchanged: the collections
    after the run are the ones before it with documents added at the end. *)
Theorem run_appends (rs : list Request) (s : Store) :
  exists lc le, category (run rs s) = category s ++ lc /\
                expense (run rs s) = expense s ++ le.
Proof.
  unfold run. revert s. induction rs as [|r rs IH]; intro s; simpl.
  - exists [], []. now rewrite !app_nil_r.
  - destruct (IH (serve r s)) as [lc [le [Hc He]]].
    destruct (serve_appends r s) as [lc0 [le0 [Hc0 He0]]].
    exists (lc0 ++ lc), (le0 ++ le).
    rewrite Hc, He, Hc0, He0, !app_assoc. auto.
Qed.

(** ** How writes change the summary *)

Lemma summary_ext (month : string) (s1 s2 : Store) :
  category s1 = category s2 ->
  find (expense s1) (expense_month month) = find (expense s2) (expense_month month) ->
  find_one (budget s1) (budget_month month) = find_one (budget s2) (budget_month month) ->
  summary month s1 = summary month s2.
Proof.
  intros Hc He Hb. unfold summary, aggregate_spent. simpl.
  fold (expense_month month). now rewrite Hc, He, Hb.
Qed.

Lemma find_insert_other {D} (c : Collection D) (q : Doc D -> bool) (o : ObjectId) (d : D) :
  q {| _id := o; data := d |} = false -> find (insert_one c o d) q = find c q.
Proof.
  intro H. unfold find, insert_one. rewrite filter_app. simpl.
  now rewrite H, app_nil_r.
Qed.

(** X8: the summary of a month does not depend on the other months: adding
    an expense, or upserting a budget, for another month leaves it as it
    was. *)
Theorem summary_other_month (month : string) (s : Store) :
  (forall e, ExpenseCreate.month e <> month ->
     summary month (fst (add_expense e s)) = summary month s) /\
  (forall b, BudgetCreate.month b <> month ->
     summary month (fst (create_budget b s)) = summary month s).
Proof.
  split.
  - intros e He. apply summary_ext; try reflexivity. simpl.
    apply find_insert_other. unfold expense_month. simpl.
    now apply String.eqb_neq.
  - intros b Hb. apply summary_ext; try reflexivity.
    rewrite find_one_after_upsert.
    now replace (String.eqb (BudgetCreate.month b) month) with false
      by (symmetry; now apply String.eqb_neq).
Qed.

Lemma summary_other_month_witness :
  summary "2024-01" (fst (add_expense
     {| ExpenseCreate.month := "2024-02"; ExpenseCreate.category_id := C1_id;
        ExpenseCreate.amount := 70; ExpenseCreate.note := None |} scenario_store))
  = summary "2024-01" scenario_store.
Proof.
  apply (proj1 (summary_other_month "2024-01" scenario_store)).
  simpl. discriminate.
Defined.



(** X10: after [create_budget b] the summary of the month of [b] reports
    the income of [b]; its [total_target] adds up one target per category id
    that [b] names, in order of first appearance, the last that [b] gives
    the id; and every row shows the target [b] gives its category, 0 when
    [b] does not name it.  Spending is as before. *)
Theorem summary_after_upsert (b : BudgetCreate.t) (s : Store) :
  let month := BudgetCreate.month b in
  exists r r',
    summary month s = Return r /\
    summary month (fst (create_budget b s)) = Return r' /\
    Summary.income r' = BudgetCreate.income b /\
    Summary.total_target r' =
      sum (map (target_of (BudgetCreate.allocations b))
               (target_keys (BudgetCreate.allocations b))) /\
    Summary.total_spent r' = Summary.total_spent r /\
    map CategorySummary.spent (Summary.categories r')
      = map CategorySummary.spent (Summary.categories r) /\
    forall row, In row (Summary.categories r') ->
      CategorySummary.target row =
        get_default (build_allocations_map (BudgetCreate.allocations b))
                    (CategorySummary.id row) 0.
Proof.
  intro month. do 2 eexists.
  split; [apply summary_returns|]. split; [apply summary_returns|].
  cbn [Summary.income Summary.total_target Summary.total_spent Summary.categories].
  assert (Hf : find_one (read db_budget (fst (create_budget b s))) (budget_month month)
               = Some {| _id := next_oid s; data := b |}).
  { change (read db_budget ?x) with (budget x). rewrite find_one_after_upsert.
    unfold month. now rewrite String.eqb_refl. }
  assert (Hmap : allocations_map_of month (fst (create_budget b s))
                 = build_allocations_map (BudgetCreate.allocations b)).
  { unfold allocations_map_of, allocations_of. now rewrite Hf. }
  split; [unfold income_of; now rewrite Hf|].
  split; [rewrite Hmap; apply total_target_keys|].
  split; [reflexivity|]. split.
  - change (categories_of (fst (create_budget b s))) with (categories_of s).
    change (spent_by_cat_of month (fst (create_budget b s)))
      with (spent_by_cat_of month s).
    rewrite !map_map. reflexivity.
  - intros row Hrow. apply in_map_iff in Hrow. destruct Hrow as [item [<- _]].
    rewrite Hmap. reflexivity.
Qed.

(** X11: in a store produced by the API, creating a category adds one row
    at the end of every month's summary, with the new id and the name and
    emoji given; the rows before it, the income and the totals are
    unchanged. *)
Theorem summary_after_create_category (month : string) (c : Category.t) (s : Store) :
  reachable s ->
  exists r row,
    summary month s = Return r /\
    summary month (fst (create_category c s)) =
      Return {| Summary.month := month;
                Summary.income := Summary.income r;
                Summary.total_target := Summary.total_target r;
                Summary.total_spent := Summary.total_spent r;
                Summary.remaining := Summary.remaining r;
                Summary.categories := Summary.categories r ++ [row] |} /\
    CategorySummary.id row = str (next_oid s) /\
    CategorySummary.name row = Category.name c /\
    CategorySummary.emoji row = Category.emoji c.
Proof.
  intro Hr. apply reachable_wf in Hr.
  pose proof (store_wf_create_category c s Hr) as Hr'.
  do 2 eexists. split; [apply summary_returns|]. split.
  - rewrite summary_returns. cbn [Summary.income Summary.total_target
      Summary.total_spent Summary.remaining Summary.categories].
    unfold items. rewrite (categories_of_wf _ Hr'), (categories_of_wf _ Hr).
    simpl. unfold insert_one. rewrite !map_app. simpl. reflexivity.
  - repeat split.
Qed.

Lemma summary_after_create_category_witness :
  exists r row,
    summary "2024-01" scenario_store = Return r /\
    summary "2024-01" (fst (create_category
                              {| Category.name := "Rent"; Category.emoji := None |}
                              scenario_store)) =
      Return {| Summary.month := "2024-01";
                Summary.income := Summary.income r;
                Summary.total_target := Summary.total_target r;
                Summary.total_spent := Summary.total_spent r;
                Summary.remaining := Summary.remaining r;
                Summary.categories := Summary.categories r ++ [row] |} /\
    CategorySummary.id row = str (next_oid scenario_store) /\
    CategorySummary.name row = "Rent" /\
    CategorySummary.emoji row = None.
Proof.
  apply (summary_after_create_category "2024-01"
           {| Category.name := "Rent"; Category.emoji := None |} scenario_store).
  unfold scenario_store. repeat apply reachable_serve. apply reachable_empty.
Defined.

(** ** Targets are never negative *)

Lemma serve_budget_from (r : Request) (s : Store) (d : Doc BudgetCreate.t) :
  In d (budget (serve r s)) ->
  In d (budget s) \/
  exists body, r = PostBudget body /\ BudgetCreate.validate body = Return (data d).
Proof.
  destruct r as [b|b|b]; simpl.
  - unfold POST_api_categories, endpoint. destruct (Category.validate b); auto.
  - unfold POST_api_budgets, endpoint.
    destruct (BudgetCreate.validate b) as [x|] eqn:E; [|auto]. simpl.
    unfold insert_one, delete_many. rewrite in_app_iff, filter_In. simpl.
    intros [[H _]|[<-|[]]]; [auto|]. right. exists b. auto.
  - unfold POST_api_expenses, endpoint. destruct (ExpenseCreate.validate b); auto.
Qed.

Lemma reachable_targets_nonneg (s : Store) :
  reachable s ->
  forall d a, In d (budget s) -> In a (BudgetCreate.allocations (data d)) ->
              ge (Allocation.target a) 0 = true.
Proof.
  induction 1 as [|r s _ IH]; intros d a Hd Ha.
  - destruct Hd.
  - apply serve_budget_from in Hd. destruct Hd as [Hd|[body [_ Hv]]].
    + exact (IH d a Hd Ha).
    + apply BudgetCreate_validate_targets in Hv.
      rewrite Forall_forall in Hv. now apply Hv.
Qed.

(** X12: in every store produced by the API, every allocation of every
    stored budget has a target that is not negative. *)
Theorem stored_targets_nonneg (s : Store) (d : Doc BudgetCreate.t) (a : Allocation.t) :
  reachable s -> In d (budget s) -> In a (BudgetCreate.allocations (data d)) ->
  ge (Allocation.target a) 0 = true.
Proof.
  intros Hr Hd Ha. exact (reachable_targets_nonneg s Hr d a Hd Ha).
Qed.

Lemma stored_targets_nonneg_witness : ge 500 0 = true.
Proof.
  apply (stored_targets_nonneg dup_store
           {| _id := 2%nat;
              data := {| BudgetCreate.month := "2024-01"; BudgetCreate.income := 1000;
                         BudgetCreate.allocations :=
                           [{| Allocation.category_id := C1_id; Allocation.target := 300 |};
                            {| Allocation.category_id := C1_id; Allocation.target := 500 |}] |} |}
           {| Allocation.category_id := C1_id; Allocation.target := 500 |}).
  - unfold dup_store. repeat apply reachable_serve. apply reachable_empty.
  - left. reflexivity.
  - right. left. reflexivity.
Defined.

Lemma nonneg_setitem (k : string) (v : float) (d : dict float) :
  ge v 0 = true -> nonneg_values d -> nonneg_values (setitem k v d).
Proof.
  intros Hv. unfold nonneg_values. induction d as [|[k' v'] d IH]; intro Hd; simpl.
  - intros kv [<-|[]]. exact Hv.
  - destruct (String.eqb k' k).
    + intros kv [<-|Hin]; [exact Hv | apply Hd; now right].
    + intros kv [<-|Hin]; [apply (Hd (k', v')); now left|].
      apply IH; [|exact Hin]. intros kv' Hkv'. apply Hd. now right.
Qed.

Lemma nonneg_assigned (l : list Allocation.t) (acc : dict float) :
  Forall (fun a => ge (Allocation.target a) 0 = true) l ->
  nonneg_values acc -> nonneg_values (fold_left assign_target l acc).
Proof.
  revert acc. induction l as [|a l IH]; intros acc Hl Hacc; simpl; [exact Hacc|].
  inversion Hl as [|x xs Ha Hl']; subst.
  apply IH; [exact Hl'|]. now apply nonneg_setitem.
Qed.

Lemma nonneg_get_default (d : dict float) (k : string) :
  nonneg_values d -> ge (get_default d k 0) 0 = true.
Proof.
  unfold nonneg_values. induction d as [|[k' v'] d IH]; intro Hd.
  - reflexivity.
  - rewrite get_default_cons. destruct (String.eqb k' k).
    + apply (Hd (k', v')). now left.
    + apply IH. intros kv Hkv. apply Hd. now right.
Qed.

(** X13: in a store produced by the API, no row of a summary shows a target
    that is negative or NaN: every row target is [>= 0]. *)
Theorem row_targets_nonneg (month : string) (s : Store) :
  reachable s ->
  exists r, summary month s = Return r /\
    forall row, In row (Summary.categories r) ->
                ge (CategorySummary.target row) 0 = true.
Proof.
  intro Hr.
  assert (Hnn : nonneg_values (allocations_map_of month s)).
  { unfold allocations_map_of, build_allocations_map.
    apply nonneg_assigned; [|intros kv []].
    apply Forall_forall. intros a Ha. unfold allocations_of in Ha.
    destruct (find_one (read db_budget s) (budget_month month)) as [d|] eqn:E;
      [|destruct Ha].
    apply find_some in E. destruct E as [Hd _].
    exact (reachable_targets_nonneg s Hr d a Hd Ha). }
  eexists. split; [apply summary_returns|].
  cbn [Summary.categories].
  intros row Hrow. apply in_map_iff in Hrow. destruct Hrow as [item [<- _]].
  simpl. now apply nonneg_get_default.
Qed.

Lemma row_targets_nonneg_witness :
  exists r, summary "2024-01" dup_store = Return r /\
    forall row, In row (Summary.categories r) ->
                ge (CategorySummary.target row) 0 = true.
Proof.
  apply (row_targets_nonneg "2024-01" dup_store).
  unfold dup_store. repeat apply reachable_serve. apply reachable_empty.
Defined.

(** ** Accepted and rejected requests *)

Lemma required_raises {A} (x : option A) (e : exn) :
  required x = Raise e -> e = RequestValidationError.
Proof.
  destruct x; simpl; congruence.
Qed.

Lemma required_ge0_raises (x : option float) (e : exn) :
  required_ge0 x = Raise e -> e = RequestValidationError.
Proof.
  unfold required_ge0. destruct x as [v|]; simpl; [|congruence].
  destruct (ge v 0); congruence.
Qed.

Lemma Allocation_validate_raises (ab : AllocationBody) (e : exn) :
  Allocation.validate ab = Raise e -> e = RequestValidationError.
Proof.
  unfold Allocation.validate.
  destruct (required (ab_category_id ab)) eqn:E1; simpl;
    [|intros [= <-]; now apply required_raises in E1].
  destruct (required_ge0 (ab_target ab)) eqn:E2; simpl; [discriminate|].
  intros [= <-]. now apply required_ge0_raises in E2.
Qed.

Lemma Allocation_validate_bad (ab : AllocationBody) :
  bad_allocation ab -> Allocation.validate ab = Raise RequestValidationError.
Proof.
  unfold bad_allocation, Allocation.validate, required_ge0.
  intros [H|[H|[x [H Hx]]]].
  - now rewrite H.
  - rewrite H. destruct (ab_category_id ab); reflexivity.
  - rewrite H. destruct (ab_category_id ab); simpl; [|reflexivity].
    now rewrite Hx.
Qed.

Lemma for_each_raises {A B} (f : A -> PyResult B) (e0 : exn) (xs : list A) (x : A) :
  (forall y e, f y = Raise e -> e = e0) ->
  In x xs -> f x = Raise e0 -> for_each f xs = Raise e0.
Proof.
  intros Hall. induction xs as [|y xs IH]; simpl; [tauto|].
  intros Hin Hx. destruct (f y) as [b|e] eqn:Ey; simpl.
  - destruct Hin as [->|Hin]; [congruence|]. now rewrite IH.
  - f_equal. now apply (Hall y).
Qed.

(** X14: [POST /api/budgets] with a body that lacks month, income or the
    allocation list, or whose list has an element without category_id,
    without target or with a target that is not [>= 0], is answered 422 and leaves
    the store as it was: the budget already stored for that month is not
    deleted. *)
Theorem rejected_budget_untouched (body : BudgetBody) (s : Store) :
  bb_month body = None \/ bb_income body = None \/ bb_allocations body = None \/
  (exists l ab, bb_allocations body = Some l /\ In ab l /\ bad_allocation ab) ->
  POST_api_budgets body s = (s, Raise RequestValidationError).
Proof.
  intro H. unfold POST_api_budgets, endpoint.
  enough (E : BudgetCreate.validate body = Raise RequestValidationError) by now rewrite E.
  unfold BudgetCreate.validate.
  destruct (bb_month body) as [m|]; simpl; [|reflexivity].
  destruct (bb_income body) as [i|]; simpl; [|reflexivity].
  destruct (bb_allocations body) as [l|]; simpl; [|reflexivity].
  destruct H as [H|[H|[H|[l' [ab [Hl [Hin Hbad]]]]]]]; try discriminate.
  injection Hl as <-.
  rewrite (for_each_raises Allocation.validate RequestValidationError l ab
             Allocation_validate_raises Hin (Allocation_validate_bad ab Hbad)).
  reflexivity.
Qed.

Lemma rejected_budget_untouched_witness :
  POST_api_budgets (budget_body "2024-01" 1000 [(C1_id, -1)]) scenario_store
  = (scenario_store, Raise RequestValidationError).
Proof.
  apply (rejected_budget_untouched
           (budget_body "2024-01" 1000 [(C1_id, -1)]) scenario_store).
  right. right. right.
  exists [{| ab_category_id := Some C1_id; ab_target := Some (-1) |}],
         {| ab_category_id := Some C1_id; ab_target := Some (-1) |}.
  split; [reflexivity|]. split; [left; reflexivity|].
  right. right. exists (-1). split; reflexivity.
Defined.





(** X16: a body that the [Budget] schema accepts and that gives the
    allocation list is accepted by [POST /api/budgets] with the same month,
    income and allocations, and afterwards these are the budget of that
    month. *)
Theorem schema_budget_accepted (body : BudgetBody) (x : Budget.t) (s : Store) :
  Budget.validate body = Return x -> bb_allocations body <> None ->
  let b := {| BudgetCreate.month := Budget.month x;
              BudgetCreate.income := Budget.income x;
              BudgetCreate.allocations := Budget.allocations x |} in
  BudgetCreate.validate body = Return b /\
  get_budget (Budget.month x) (fst (POST_api_budgets body s))
    = Return (Some {| id := str (next_oid s); body := b |}).
Proof.
  intros Hv Hal b.
  assert (E : BudgetCreate.validate body = Return b).
  { subst b. unfold Budget.validate in Hv. unfold BudgetCreate.validate.
    destruct (required (bb_month body)) as [m|]; simpl in *; [|discriminate].
    destruct (required_ge0 (bb_income body)) as [i|] eqn:Ei; simpl in *; [|discriminate].
    apply required_ge0_nonneg in Ei. destruct Ei as [-> _]. simpl.
    destruct (bb_allocations body) as [l|]; [|congruence]. simpl.
    destruct (for_each Allocation.validate l); simpl in *; [|discriminate].
    now injection Hv as <-. }
  split; [exact E|].
  unfold POST_api_budgets, endpoint. rewrite E.
  unfold get_budget. change (read db_budget ?y) with (budget y).
  rewrite find_one_after_upsert. subst b. simpl.
  now rewrite String.eqb_refl.
Qed.

Lemma schema_budget_accepted_witness :
  BudgetCreate.validate (budget_body "2024-03" 1200 [(C1_id, 400)])
  = Return {| BudgetCreate.month := "2024-03"; BudgetCreate.income := 1200;
              BudgetCreate.allocations :=
                [{| Allocation.category_id := C1_id; Allocation.target := 400 |}] |}.
Proof.
  apply (proj1 (schema_budget_accepted
           (budget_body "2024-03" 1200 [(C1_id, 400)])
           {| Budget.month := "2024-03"; Budget.income := 1200;
              Budget.allocations :=
                [{| Allocation.category_id := C1_id; Allocation.target := 400 |}] |}
           empty eq_refl ltac:(discriminate))).
Defined.

(** ** The connectivity probe *)

Lemma firstn_10_length {A} (l : list A) : (List.length (firstn 10 l) <= 10)%nat.
Proof.
  rewrite length_firstn. lia.
Qed.

(** X17: whatever the database handle does, [test_database] returns a
    response.  It lists at most ten collections, the first ten the handle
    names, and none unless the handle is present and answers; the fields
    [database_url] and [database_name] say only whether the environment
    variables are set, never what the handle is called; and the status is
    Connected exactly when a handle is present whose name can be looked
    up. *)
Theorem test_database_response (db : option Db) (getenv : string -> option string) :
  let r := test_database db getenv in
  (List.length (Probe.collections r) <= 10)%nat /\
  Probe.collections r =
    match db with
    | Some {| db_name := AttrRaises _ |} => []
    | Some {| list_collection_names := inr names |} => firstn 10 names
    | _ => []
    end /\
  Probe.database_url r =
    Some (if env_set (getenv "DATABASE_URL") then "✅ Set" else "❌ Not Set") /\
  Probe.database_name r =
    Some (if env_set (getenv "DATABASE_NAME") then "✅ Set" else "❌ Not Set") /\
  (Probe.connection_status r = "Connected" <->
   exists d, db = Some d /\ forall msg, db_name d <> AttrRaises msg) /\
  (Probe.database r = "✅ Connected & Working" <->
   exists d names, db = Some d /\ (forall msg, db_name d <> AttrRaises msg) /\
                   list_collection_names d = inr names).
Proof.
  cbv zeta. destruct db as [[nm [msg|names]]|]; [destruct nm .. |]; simpl;
    repeat split;
    try (apply firstn_10_length);
    try (lia);
    try discriminate;
    try (intros _; eexists; split; [reflexivity | discriminate]);
    try (intros _; do 2 eexists; split; [reflexivity | split; [discriminate | reflexivity]]);
    try (intros [d [[= <-] H]]; simpl in H; now (exfalso; eapply H));
    try (intros [d [names' [[= <-] [H H']]]]; simpl in *;
         first [discriminate | now (exfalso; eapply H)]);
    try (intros [d [E _]]; discriminate);
    try (intros [d [names' [E _]]]; discriminate).
Qed.

(** ** Upserting the same budget again *)

Lemma summary_ext_data (month : string) (s1 s2 : Store) :
  category s1 = category s2 ->
  find (expense s1) (expense_month month) = find (expense s2) (expense_month month) ->
  option_map data (find_one (budget s1) (budget_month month))
    = option_map data (find_one (budget s2) (budget_month month)) ->
  summary month s1 = summary month s2.
Proof.
  intros Hc He Hb. unfold summary, aggregate_spent. simpl.
  fold (expense_month month). rewrite Hc, He.
  destruct (find_one (budget s1) (budget_month month)) as [d1|];
    destruct (find_one (budget s2) (budget_month month)) as [d2|];
    simpl in Hb; try discriminate; [|reflexivity].
  injection Hb as ->. reflexivity.
Qed.

(** X18: upserting the budget that was upserted last changes no summary:
    every month reads as after the first call.  Only the id of the stored
    budget is new. *)
Theorem upsert_again_same_summary (b : BudgetCreate.t) (s : Store) (month : string) :
  let s1 := fst (create_budget b s) in
  let s2 := fst (create_budget b s1) in
  summary month s2 = summary month s1 /\
  map data (budget s2) = map data (budget s1).
Proof.
  intros s1 s2. split.
  - apply summary_ext_data; try reflexivity.
    subst s2. rewrite find_one_after_upsert.
    subst s1. rewrite find_one_after_upsert.
    now destruct (String.eqb (BudgetCreate.month b) month).
  - subst s2 s1. simpl. unfold insert_one, delete_many.
    rewrite filter_app. simpl.
    replace (budget_month (BudgetCreate.month b) {| _id := next_oid s; data := b |})
      with true by (unfold budget_month; simpl; now rewrite String.eqb_refl).
    simpl. rewrite app_nil_r, !map_app. simpl. f_equal. f_equal.
    induction (budget s) as [|d c IH]; simpl; [reflexivity|].
    destruct (budget_month (BudgetCreate.month b) d) eqn:E; simpl; [exact IH|].
    rewrite E. simpl. now f_equal.
Qed.

